(** * The Unity-Python UDP bridge of the Unitree G1 controller

    A shallow embedding of [g1_bridge_server.py] (class [UnityPythonBridge]):
    the reply path [send_to_unity], the command dispatcher [process_command]
    and the receive loop [listen], followed by the properties of the
    protocol that the bridge's specification states. *)

From Stdlib Require Import ZArith String List Ascii Arith.
Import ListNotations.
Open Scope bool_scope.
Open Scope string_scope.

(** ** JSON values, as [json.loads] returns them and [json.dumps] accepts them *)

Module Json.

#[local] Set Warnings "-register-all".
(** A Python object that [json.loads] can return. A [dict] is kept as the
    list of its items in insertion order (the order [json.dumps] writes
    them in), its keys distinct; a [float] by its binary64 bit pattern; a
    [str] by the bytes of its UTF-8 encoding, where a lone surrogate (which
    [json.loads] lets through from an escape such as [\ud800]) is the three
    bytes ED A0..BF 80..BF that the encoding proper forbids. *)
Inductive value : Type :=
| JNull
| JBool (b : bool)
| JInt (n : Z)
| JFloat (bits : Z)
| JString (s : string)
| JList (items : list value)
| JObject (fields : list (string * value)).

Definition dict : Type := list (string * value).

(** [d.get(key)], [None] of the option type standing for a missing key. *)
Fixpoint lookup (key : string) (d : dict) : option value :=
  match d with
  | [] => None
  | (k, v) :: rest => if String.eqb k key then Some v else lookup key rest
  end.

(** [d.get(key, default)]. *)
Definition get (d : dict) (key : string) (default : value) : value :=
  match lookup key d with
  | Some v => v
  | None => default
  end.

(** [v == s] for a string literal [s]: only a [str] equals a [str]. *)
Definition eq_str (v : value) (s : string) : bool :=
  match v with
  | JString t => String.eqb t s
  | _ => false
  end.

(** How deep the lists and mappings of a value are nested. *)
Fixpoint depth (v : value) : nat :=
  match v with
  | JList items =>
      S (fold_right (fun item deepest => Nat.max (depth item) deepest) 0 items)
  | JObject fields =>
      S (fold_right
           (fun field deepest => let '(_, item) := field in Nat.max (depth item) deepest)
           0 fields)
  | _ => 0
  end.

(** [v] inside [n] lists. *)
Fixpoint nested (n : nat) (v : value) : value :=
  match n with
  | O => v
  | S m => JList [nested m v]
  end.

(** The [str] has a surrogate code point: the byte ED followed by one of
    A0..BF. *)
Fixpoint has_surrogate (s : string) : bool :=
  match s with
  | String a rest =>
      match rest with
      | String b _ =>
          (Ascii.eqb a (ascii_of_nat 237) && Nat.leb 160 (nat_of_ascii b))
          || has_surrogate rest
      | EmptyString => false
      end
  | EmptyString => false
  end.

End Json.
Import Json.

(** ** The world around the bridge *)

(** An endpoint, the pair [(host, port)] that [recvfrom] returns and
    [sendto] takes. *)
Definition address : Type := (string * Z)%type.

(** What one run of a method takes from the Python runtime and from its
    surroundings: [repr] of a value that is not a [str] (what an f-string
    writes for it), the reading of the clock, whether the transport refuses
    a datagram ([sendto] raising), and where the interpreter gives up on a
    value that is not a [str]: [repr_raises] when [str] or [repr] of it
    raises and [dumps_raises] when [json.dumps] of it raises
    ([RecursionError] on nesting deeper than the interpreter has room for,
    [ValueError] on an [int] of more digits than it converts). An [Env] is
    the world of one run: a handler reads the clock at most once, and a
    handler that runs at another time runs in another [Env]. *)
Record Env : Type := {
  py_repr : value -> string;
  now_isoformat : string;
  sendto_raises : dict -> address -> bool;
  repr_raises : value -> bool;
  dumps_raises : value -> bool
}.

(** [str(v)] raises: never on a [str]. *)
Definition str_raises (env : Env) (v : value) : bool :=
  match v with
  | JString _ => false
  | _ => repr_raises env v
  end.

(** [json.dumps] gives up on a value of an envelope: never on a [str],
    which it writes in ASCII with every other character escaped. *)
Definition dumps_gives_up (env : Env) (v : value) : bool :=
  match v with
  | JString _ => false
  | _ => dumps_raises env v
  end.

(** [json.dumps] raises on the envelope: it gives up on one of its
    values. *)
Definition dumps_fails (env : Env) (message_dict : dict) : bool :=
  existsb (fun field => dumps_gives_up env (snd field)) message_dict.

(** [str(message_dict)] raises: the [repr] of one of its values does. *)
Definition dict_str_raises (env : Env) (message_dict : dict) : bool :=
  existsb (fun field => str_raises env (snd field)) message_dict.

(** Standard output, which encodes as UTF-8 (the lines of the bridge need
    it), cannot take the text [str(v)]: a [str] with a surrogate. The
    [repr] of any other value escapes the surrogates it contains. *)
Definition unencodable (v : value) : bool :=
  match v with
  | JString s => has_surrogate s
  | _ => false
  end.

(** [f"{v}"]: a [str] is written as it is, anything else by its [repr]. *)
Definition py_str (env : Env) (v : value) : string :=
  match v with
  | JString s => s
  | _ => py_repr env v
  end.

(** The exceptions the bridge meets. [BaseExceptionOnly] stands for the
    ones that are not subclasses of [Exception], and [RecursionOrValueError]
    for what [str], [repr] or [json.dumps] raises on a value it gives up
    on: [RecursionError] or [ValueError], both subclasses of [Exception]. *)
Inductive exn : Type :=
| SocketTimeout
| OSError
| UnicodeDecodeError
| UnicodeEncodeError
| JSONDecodeError
| RecursionError
| RecursionOrValueError
| AttributeError
| BaseExceptionOnly.

Definition is_Exception (e : exn) : bool :=
  match e with
  | BaseExceptionOnly => false
  | _ => true
  end.

(** The lines the bridge prints, by the statement that prints them. *)
Inductive log_line : Type :=
| LogAddressNotSet
| LogSent (message_dict : dict)
| LogSendError
| LogProcessing (cmd_type : value)
| LogHandshakeRequested
| LogExtendingHand
| LogPlayerInteraction
| LogHandshakeCompletion
| LogUnityConnected (source : address)
| LogEstablished
| LogReceived (command_dict : value)
| LogUnexpectedIP (host : string)
| LogJSONDecodeError
| LogError (e : exn).

(** What a piece of the bridge does to the world, in program order:
    [SendTo m a] is the call [sock.sendto(json.dumps(m).encode(), a)],
    [Spawn c] the start of a thread running [process_command(c)]. *)
Inductive effect : Type :=
| Print (line : log_line)
| Sleep (seconds : Z)
| SendTo (message_dict : dict) (dest : address)
| Spawn (command_dict : value).

(** ** The bridge object *)

Record UnityPythonBridge : Type := {
  listen_port : Z;
  pc_ip : string;
  pc_port : option Z;
  running : bool;
  unity_address : option address
}.

(** [__init__]: nothing is learned yet and the loop is not running. *)
Definition init (pc_ip0 : string) (listen_port0 : Z) : UnityPythonBridge :=
  {| listen_port := listen_port0;
     pc_ip := pc_ip0;
     pc_port := None;
     running := false;
     unity_address := None |}.

Definition set_running (r : bool) (self : UnityPythonBridge) : UnityPythonBridge :=
  {| listen_port := listen_port self;
     pc_ip := pc_ip self;
     pc_port := pc_port self;
     running := r;
     unity_address := unity_address self |}.

Definition set_unity_address (a : address) (self : UnityPythonBridge)
  : UnityPythonBridge :=
  {| listen_port := listen_port self;
     pc_ip := pc_ip self;
     pc_port := pc_port self;
     running := running self;
     unity_address := Some a |}.

(** ** A monad for the methods: the object, the effects, an exception *)

Inductive outcome (A : Type) : Type :=
| Ok (a : A)
| Raised (e : exn).
Arguments Ok {A} a.
Arguments Raised {A} e.

(** The result of running a method on the object: the object afterwards,
    what was done to the world, and the value returned or exception raised. *)
Record ran (A : Type) : Type := {
  self_after : UnityPythonBridge;
  effects : list effect;
  result : outcome A
}.
Arguments self_after {A} r.
Arguments effects {A} r.
Arguments result {A} r.

Definition M (A : Type) : Type := UnityPythonBridge -> ran A.

Definition ret {A : Type} (a : A) : M A :=
  fun self => {| self_after := self; effects := []; result := Ok a |}.

Definition raise {A : Type} (e : exn) : M A :=
  fun self => {| self_after := self; effects := []; result := Raised e |}.

Definition bind {A B : Type} (m : M A) (k : A -> M B) : M B :=
  fun self =>
    let r := m self in
    match result r with
    | Ok a =>
        let r' := k a (self_after r) in
        {| self_after := self_after r';
           effects := effects r ++ effects r';
           result := result r' |}
    | Raised e =>
        {| self_after := self_after r; effects := effects r; result := Raised e |}
    end.

(** [try: body except ...: handler]: a handler that declines an exception
    (no clause matches) raises it again. *)
Definition try_except {A : Type} (body : M A) (handler : exn -> M A) : M A :=
  fun self =>
    let r := body self in
    match result r with
    | Ok a => r
    | Raised e =>
        let r' := handler e (self_after r) in
        {| self_after := self_after r';
           effects := effects r ++ effects r';
           result := result r' |}
    end.

Definition do (e : effect) : M unit :=
  fun self => {| self_after := self; effects := [e]; result := Ok tt |}.

Definition read {A : Type} (f : UnityPythonBridge -> A) : M A :=
  fun self => {| self_after := self; effects := []; result := Ok (f self) |}.

Definition write (f : UnityPythonBridge -> UnityPythonBridge) : M unit :=
  fun self => {| self_after := f self; effects := []; result := Ok tt |}.

Notation "x <- m ;; k" := (bind m (fun x => k))
  (at level 61, m at next level, right associativity).
Notation "m ;; k" := (bind m (fun _ => k))
  (at level 61, right associativity).

(** ** The methods of [UnityPythonBridge] *)

Section Methods.

Variable env : Env.

(** [f"{v}"]: the text, or what [str(v)] raises. *)
Definition format (v : value) : M string :=
  if str_raises env v then raise RecursionOrValueError else ret (py_str env v).

(** [print] of a line that shows [str(v)]: the formatting can raise, and
    so can the writing. *)
Definition print_showing (line : log_line) (v : value) : M unit :=
  format v ;;
  if unencodable v then raise UnicodeEncodeError else do (Print line).

(** [json.dumps(message_dict).encode('utf-8')]. *)
Definition json_dumps (message_dict : dict) : M unit :=
  if dumps_fails env message_dict then raise RecursionOrValueError else ret tt.

(** [sock.sendto(..., dest)]: the call is made, and may raise. *)
Definition sendto (message_dict : dict) (dest : address) : M unit :=
  do (SendTo message_dict dest) ;;
  if sendto_raises env message_dict dest then raise OSError else ret tt.

(** [print(f"[BRIDGE -> UNITY] {message_dict}")]. *)
Definition print_sent (message_dict : dict) : M unit :=
  if dict_str_raises env message_dict
  then raise RecursionOrValueError
  else do (Print (LogSent message_dict)).

(** [send_to_unity]: nothing is sent while no reply endpoint is known;
    whatever goes wrong in serialising, sending or printing is caught,
    printed and reported, not raised. *)
Definition send_to_unity (message_dict : dict) : M bool :=
  known <- read unity_address ;;
  match known with
  | None =>
      do (Print LogAddressNotSet) ;;
      ret false
  | Some dest =>
      try_except
        (json_dumps message_dict ;;
         sendto message_dict dest ;;
         print_sent message_dict ;;
         ret true)
        (fun e =>
           if is_Exception e
           then do (Print LogSendError) ;; ret false
           else raise e)
  end.

(** [command_dict.get]: only a [dict] has the method. *)
Definition as_dict (command_dict : value) : M dict :=
  match command_dict with
  | JObject fields => ret fields
  | _ => raise AttributeError
  end.

(** The response envelopes that [process_command] builds. *)
Definition ping_response : dict :=
  [ ("status", JString "success");
    ("command", JString "ping");
    ("message", JString "pong from robot controller");
    ("timestamp", JString (now_isoformat env));
    ("controller_ip", JString "192.168.123.164");
    ("robot_ip", JString "192.168.123.161") ].

Definition test_echo_response (command_dict : dict) : dict :=
  [ ("status", JString "success");
    ("command", JString "test_echo");
    ("echo_data", get command_dict "data" (JString ""));
    ("message",
      JString ("Echoed from robot controller: "
                 ++ py_str env (get command_dict "data" (JString "")))) ].

Definition shake_hand_acknowledged : dict :=
  [ ("status", JString "acknowledged");
    ("command", JString "shake_hand");
    ("message", JString "Handshake command received, preparing robot") ].

Definition shake_hand_in_progress : dict :=
  [ ("status", JString "in_progress");
    ("command", JString "shake_hand");
    ("message", JString "Robot hand extended, waiting for player") ].

Definition shake_hand_completed : dict :=
  [ ("status", JString "completed");
    ("command", JString "shake_hand");
    ("message", JString "Handshake completed, robot returning to idle") ].

Definition get_status_response : dict :=
  [ ("status", JString "success");
    ("command", JString "get_status");
    ("robot_status", JString "idle");
    ("connection", JString "active");
    ("controller_ip", JString "192.168.123.164");
    ("robot_ip", JString "192.168.123.161");
    ("message", JString "Robot controller is ready") ].

Definition unknown_response (cmd_type : value) : dict :=
  [ ("status", JString "error");
    ("command", cmd_type);
    ("message", JString ("Unknown command: " ++ py_str env cmd_type)) ].

(** [cmd_type = command_dict.get('command', 'unknown')]. *)
Definition cmd_type_of (command_dict : dict) : value :=
  get command_dict "command" (JString "unknown").

(** [process_command]: the chain of comparisons on [cmd_type], each branch
    handing its envelopes to [send_to_unity] and dropping what it returns.
    The first line printed shows [cmd_type], the response of [test_echo]
    is built with an f-string of [data] and the response to an unknown
    command with one of [cmd_type]: none of them is inside a [try]. *)
Definition process_command (command_dict : value) : M unit :=
  fields <- as_dict command_dict ;;
  let cmd_type := cmd_type_of fields in
  print_showing (LogProcessing cmd_type) cmd_type ;;
  if eq_str cmd_type "ping" then
    send_to_unity ping_response ;;
    ret tt
  else if eq_str cmd_type "test_echo" then
    format (get fields "data" (JString "")) ;;
    send_to_unity (test_echo_response fields) ;;
    ret tt
  else if eq_str cmd_type "shake_hand" then
    do (Print LogHandshakeRequested) ;;
    send_to_unity shake_hand_acknowledged ;;
    do (Print LogExtendingHand) ;;
    do (Sleep 2) ;;
    send_to_unity shake_hand_in_progress ;;
    do (Print LogPlayerInteraction) ;;
    do (Sleep 3) ;;
    do (Print LogHandshakeCompletion) ;;
    do (Sleep 1) ;;
    send_to_unity shake_hand_completed ;;
    ret tt
  else if eq_str cmd_type "get_status" then
    send_to_unity get_status_response ;;
    ret tt
  else
    format cmd_type ;;
    send_to_unity (unknown_response cmd_type) ;;
    ret tt.

End Methods.

(** ** The receive loop *)

(** The bytes of a datagram, by what [data.decode('utf-8')] and then
    [json.loads] make of them: the text of a datagram is not JSON
    ([JSONDecodeError]), is nested deeper than the interpreter recurses
    ([RecursionError]), or is the document of a value. *)
Inductive text : Type :=
| NotJson
| TooDeep
| Document (v : value).

Inductive bytes : Type :=
| NotUtf8
| Utf8 (t : text).

(** What one call of [sock.recvfrom(4096)] comes back with. *)
Inductive received : Type :=
| Timeout
| RecvFails (e : exn)
| Datagram (data : bytes) (source : address).

Definition recvfrom (r : received) : M (bytes * address) :=
  match r with
  | Timeout => raise SocketTimeout
  | RecvFails e => raise e
  | Datagram data source => ret (data, source)
  end.

Definition decode_utf8 (data : bytes) : M text :=
  match data with
  | NotUtf8 => raise UnicodeDecodeError
  | Utf8 t => ret t
  end.

Definition json_loads (message : text) : M value :=
  match message with
  | NotJson => raise JSONDecodeError
  | TooDeep => raise RecursionError
  | Document v => ret v
  end.

(** [print(f"[UNITY -> BRIDGE] {command_dict}")]: a document is shown
    before its handler is started. What [json.loads] could build, [repr]
    can format; but a document that is itself a [str] is written as it is,
    and standard output does not take a surrogate. *)
Definition print_received (command_dict : value) : M unit :=
  if unencodable command_dict
  then raise UnicodeEncodeError
  else do (Print (LogReceived command_dict)).

(** The body of the [try] of one iteration. *)
Definition listen_body (r : received) : M unit :=
  packet <- recvfrom r ;;
  let '(data, source) := packet in
  expected <- read pc_ip ;;
  if String.eqb (fst source) expected then
    known <- read unity_address ;;
    match known with
    | None =>
        write (set_unity_address source) ;;
        do (Print (LogUnityConnected source)) ;;
        do (Print LogEstablished)
    | Some _ => ret tt
    end ;;
    message <- decode_utf8 data ;;
    command_dict <- json_loads message ;;
    print_received command_dict ;;
    do (Spawn command_dict)
  else
    do (Print (LogUnexpectedIP (fst source))).

(** The [except] clauses, in the order they are tried. *)
Definition listen_handler (e : exn) : M unit :=
  match e with
  | SocketTimeout => ret tt
  | JSONDecodeError => do (Print LogJSONDecodeError)
  | _ =>
      if is_Exception e then
        still <- read running ;;
        if still then do (Print (LogError e)) else ret tt
      else raise e
  end.

(** One turn of the [while]: the [try] statement. *)
Definition listen_iteration (r : received) : M unit :=
  try_except (listen_body r) listen_handler.

(** [while self.running:] over what the socket delivers, turn by turn. *)
Fixpoint listen_loop (inputs : list received) : M unit :=
  match inputs with
  | [] => ret tt
  | r :: rest =>
      still <- read running ;;
      if still then listen_iteration r ;; listen_loop rest else ret tt
  end.

Definition listen (inputs : list received) : M unit :=
  write (set_running true) ;;
  listen_loop inputs.

(** ** What an observer of the bridge sees *)

(** The datagrams handed to the transport, in order. *)
Fixpoint sent (es : list effect) : list (dict * address) :=
  match es with
  | [] => []
  | SendTo message_dict dest :: rest => (message_dict, dest) :: sent rest
  | _ :: rest => sent rest
  end.

(** The command envelopes for which a handler thread was started. *)
Fixpoint spawned (es : list effect) : list value :=
  match es with
  | [] => []
  | Spawn command_dict :: rest => command_dict :: spawned rest
  | _ :: rest => spawned rest
  end.

(** What the handler thread of one envelope sends, run in the world [env]
    on the object as the loop left it. *)
Definition thread_sends (env : Env) (self : UnityPythonBridge)
    (command_dict : value) : list (dict * address) :=
  sent (effects (process_command env command_dict self)).

(** Everything sent on account of one turn of the loop: by the turn itself
    and by the handler threads it starts. *)
Definition responses_to (env : Env) (r : received) (self : UnityPythonBridge)
  : list (dict * address) :=
  let turn := listen_iteration r self in
  sent (effects turn)
    ++ flat_map (thread_sends env (self_after turn)) (spawned (effects turn)).

(** The envelopes that [process_command] hands to [send_to_unity], branch
    by branch. *)
Definition envelopes (env : Env) (command_dict : value) : list dict :=
  match command_dict with
  | JObject fields =>
      let cmd_type := cmd_type_of fields in
      if eq_str cmd_type "ping" then [ping_response env]
      else if eq_str cmd_type "test_echo" then [test_echo_response env fields]
      else if eq_str cmd_type "shake_hand" then
        [shake_hand_acknowledged; shake_hand_in_progress; shake_hand_completed]
      else if eq_str cmd_type "get_status" then [get_status_response]
      else [unknown_response env cmd_type]
  | _ => []
  end.

Definition addressed (dest : address) (message_dict : dict) : dict * address :=
  (message_dict, dest).

(** The handler of a mapping raises before it sends anything: at the first
    line it prints, when [cmd_type] cannot be formatted or written, or, for
    [test_echo], at the f-string of [data]. *)
Definition dies (env : Env) (fields : dict) : bool :=
  str_raises env (cmd_type_of fields)
  || unencodable (cmd_type_of fields)
  || (negb (eq_str (cmd_type_of fields) "ping")
      && eq_str (cmd_type_of fields) "test_echo"
      && str_raises env (get fields "data" (JString ""))).

(** The envelopes that reach [sock.sendto]: those of the branch that
    [json.dumps] serialises, if the handler lives to send them. *)
Definition handed (env : Env) (command_dict : value) : list dict :=
  match command_dict with
  | JObject fields =>
      if dies env fields then []
      else filter (fun message_dict => negb (dumps_fails env message_dict))
             (envelopes env command_dict)
  | _ => []
  end.

(** The run [r], after the effect [e]. *)
Definition preceded_by {A : Type} (e : effect) (r : ran A) : ran A :=
  {| self_after := self_after r; effects := e :: effects r; result := result r |}.

(** What [send_to_unity] hands to the transport for one envelope that
    [json.dumps] serialises. *)
Definition reply_to (self : UnityPythonBridge) (message_dict : dict)
  : list (dict * address) :=
  match unity_address self with
  | Some dest => [(message_dict, dest)]
  | None => []
  end.

(** What [send_to_unity] hands to the transport for one envelope. *)
Definition handed_over (env : Env) (self : UnityPythonBridge) (message_dict : dict)
  : list (dict * address) :=
  if dumps_fails env message_dict then [] else reply_to self message_dict.

(** The reply endpoint that one turn of the loop leaves behind. *)
Definition learned (r : received) (self : UnityPythonBridge) : option address :=
  match unity_address self with
  | Some known => Some known
  | None =>
      match r with
      | Datagram _ source =>
          if String.eqb (fst source) (pc_ip self) then Some source else None
      | _ => None
      end
  end.

(** The envelope that one turn of the loop dispatches, if any. *)
Definition dispatched (r : received) (self : UnityPythonBridge) : list value :=
  match r with
  | Datagram (Utf8 (Document command_dict)) source =>
      if String.eqb (fst source) (pc_ip self)
      then if unencodable command_dict then [] else [command_dict]
      else []
  | _ => []
  end.

(** A response envelope with the given [status] and [command]. *)
Definition tagged (status command : string) (message_dict : dict) : Prop :=
  lookup "status" message_dict = Some (JString status)
  /\ lookup "command" message_dict = Some (JString command).

(** [sub] occurs in [s]. *)
Definition contains (s sub : string) : Prop :=
  exists before after, s = before ++ sub ++ after.

(** The bytes of a datagram that [listen] cannot turn into a value. *)
Definition undecodable (data : bytes) : bool :=
  match data with
  | Utf8 (Document _) => false
  | _ => true
  end.

(** The bytes of a datagram that are not a JSON document. *)
Definition not_json (data : bytes) : bool :=
  match data with
  | NotUtf8 | Utf8 NotJson => true
  | _ => false
  end.

(** A concrete world for the examples: the transport accepts everything. *)
Definition lab_env : Env :=
  {| py_repr := fun _ => "<object>";
     now_isoformat := "2025-01-01T12:00:00.000000";
     sendto_raises := fun _ _ => false;
     repr_raises := fun _ => false;
     dumps_raises := fun _ => false |}.

Definition unity_pc : string := "192.168.123.162".

(** A bridge that has just entered [listen]. *)
Definition fresh_bridge : UnityPythonBridge := set_running true (init unity_pc 5005).

(** ** Further observations *)

(** The seconds a run spends in [time.sleep]. *)
Fixpoint slept (es : list effect) : Z :=
  match es with
  | [] => 0
  | Sleep seconds :: rest => seconds + slept rest
  | _ :: rest => slept rest
  end.

(** The sends and the sleeps of a run, in order, without what is printed. *)
Fixpoint timeline (es : list effect) : list effect :=
  match es with
  | [] => []
  | Print _ :: rest => timeline rest
  | e :: rest => e :: timeline rest
  end.

(** The sources announced by the line "Unity connected from ...". *)
Fixpoint connections (es : list effect) : list address :=
  match es with
  | [] => []
  | Print (LogUnityConnected source) :: rest => source :: connections rest
  | _ :: rest => connections rest
  end.

(** An exception out of [recvfrom] that no [except] clause of the loop
    takes. *)
Definition escapes (r : received) : bool :=
  match r with
  | RecvFails e => negb (is_Exception e)
  | _ => false
  end.

(** The source of the first datagram that came from the host [ip]. *)
Fixpoint first_from (ip : string) (inputs : list received) : option address :=
  match inputs with
  | [] => None
  | Datagram _ source :: rest =>
      if String.eqb (fst source) ip then Some source else first_from ip rest
  | _ :: rest => first_from ip rest
  end.


Definition option_list {A : Type} (o : option A) : list A :=
  match o with
  | Some a => [a]
  | None => []
  end.

(** What [stop] does to the world besides the bridge: [self.sock.close()]
    and the line it prints. *)
Inductive shutdown_effect : Type :=
| SockClose
| PrintServerStopped.

(** [stop]: the flag first, then the socket, then the line. *)
Definition stop (self : UnityPythonBridge)
  : UnityPythonBridge * list shutdown_effect :=
  (set_running false self, [SockClose; PrintServerStopped]).

(** Some traffic for the examples: a stranger, a timeout, and the peer
    sending a document that is no mapping, garbage, and a [ping] from a
    second port. *)
Definition sample_traffic : list received :=
  [ Datagram (Utf8 (Document (JObject [("command", JString "ping")])))
      ("192.168.123.99", 40000%Z);
    Timeout;
    Datagram (Utf8 (Document (JInt 1))) (unity_pc, 50000%Z);
    Datagram (Utf8 NotJson) (unity_pc, 50000%Z);
    Datagram (Utf8 (Document (JObject [("command", JString "ping")])))
      (unity_pc, 50001%Z) ].

(** A world in which [json.dumps] gives up on a value nested more than 990
    deep (it raises [RecursionError]), while [repr] still formats it. *)
Definition cramped_env : Env :=
  {| py_repr := py_repr lab_env;
     now_isoformat := now_isoformat lab_env;
     sendto_raises := fun _ _ => false;
     repr_raises := fun _ => false;
     dumps_raises := fun v => Nat.ltb 990 (depth v) |}.

(** A [test_echo] whose [data] is a number inside 991 lists. *)
Definition deep_echo : dict :=
  [("command", JString "test_echo"); ("data", nested 991 (JInt 1))].

(** The [str] of the one code point U+D800, a lone surrogate, which
    [json.loads] builds from the escape [\ud800]. *)
Definition lone_surrogate : string :=
  String (ascii_of_nat 237) (String (ascii_of_nat 160) (String (ascii_of_nat 128) "")).

(** A world in which the transport refuses every datagram. *)
Definition unplugged_env : Env :=
  {| py_repr := py_repr lab_env;
     now_isoformat := now_isoformat lab_env;
     sendto_raises := fun _ _ => true;
     repr_raises := repr_raises lab_env;
     dumps_raises := dumps_raises lab_env |}.

(** ** Basic facts about the methods *)

(** *** The monad *)

Lemma ret_then {A B : Type} (a : A) (k : A -> M B) (self : UnityPythonBridge) :
  bind (ret a) k self = k a self.
Proof. unfold bind, ret; cbn. destruct (k a self); reflexivity. Qed.

Lemma read_then {A B : Type} (f : UnityPythonBridge -> A) (k : A -> M B)
    (self : UnityPythonBridge) :
  bind (read f) k self = k (f self) self.
Proof. unfold bind, read; cbn. destruct (k (f self) self); reflexivity. Qed.

Lemma bind_assoc {A B C : Type} (m : M A) (k : A -> M B) (h : B -> M C)
    (self : UnityPythonBridge) :
  bind (bind m k) h self = bind m (fun x => bind (k x) h) self.
Proof.
  unfold bind; cbn.
  destruct (result (m self)) as [a|e]; cbn; [| reflexivity].
  destruct (result (k a (self_after (m self)))) as [b|e]; cbn;
    [rewrite app_assoc |]; reflexivity.
Qed.

Lemma raise_then {A B : Type} (e : exn) (k : A -> M B) (self : UnityPythonBridge) :
  bind (raise e) k self = raise e self.
Proof. reflexivity. Qed.

Lemma write_then {B : Type} (f : UnityPythonBridge -> UnityPythonBridge)
    (k : unit -> M B) (self : UnityPythonBridge) :
  bind (write f) k self = k tt (f self).
Proof. unfold bind, write; cbn. destruct (k tt (f self)); reflexivity. Qed.

Lemma do_then_run {B : Type} (e : effect) (k : unit -> M B)
    (self : UnityPythonBridge) :
  bind (do e) k self = preceded_by e (k tt self).
Proof. reflexivity. Qed.

Lemma effects_bind {A B : Type} (m : M A) (k : A -> M B) (self : UnityPythonBridge) :
  effects (bind m k self)
  = (effects (m self)
       ++ match result (m self) with
          | Ok a => effects (k a (self_after (m self)))
          | Raised _ => []
          end)%list.
Proof.
  unfold bind. destruct (result (m self)); cbn; [reflexivity |].
  now rewrite app_nil_r.
Qed.

Lemma sent_app (es es' : list effect) :
  sent (es ++ es') = (sent es ++ sent es')%list.
Proof.
  induction es as [|e es IH]; [reflexivity |].
  destruct e; cbn; now rewrite IH.
Qed.

Lemma slept_app (es es' : list effect) :
  slept (es ++ es') = (slept es + slept es')%Z.
Proof.
  induction es as [|e es IH]; [reflexivity |].
  destruct e; cbn [app slept]; rewrite IH; auto using Z.add_assoc.
Qed.

Lemma timeline_app (es es' : list effect) :
  timeline (es ++ es') = (timeline es ++ timeline es')%list.
Proof.
  induction es as [|e es IH]; [reflexivity |].
  destruct e; cbn; now rewrite IH.
Qed.

Lemma connections_app (es es' : list effect) :
  connections (es ++ es') = (connections es ++ connections es')%list.
Proof.
  induction es as [|e es IH]; [reflexivity |].
  destruct e as [line| | |]; cbn; try exact IH.
  destruct line; cbn; now rewrite IH.
Qed.

Lemma after_bind {A B : Type} (m : M A) (k : A -> M B) (self : UnityPythonBridge) :
  self_after (bind m k self)
  = match result (m self) with
    | Ok a => self_after (k a (self_after (m self)))
    | Raised _ => self_after (m self)
    end.
Proof. unfold bind. destruct (result (m self)); reflexivity. Qed.

Lemma result_bind {A B : Type} (m : M A) (k : A -> M B) (self : UnityPythonBridge) :
  result (bind m k self)
  = match result (m self) with
    | Ok a => result (k a (self_after (m self)))
    | Raised e => Raised e
    end.
Proof. unfold bind. destruct (result (m self)); reflexivity. Qed.

Lemma spawned_app (es es' : list effect) :
  spawned (es ++ es') = (spawned es ++ spawned es')%list.
Proof.
  induction es as [|e es IH]; [reflexivity |].
  destruct e; cbn; now rewrite IH.
Qed.

(** *** The reply path *)

(** All of [send_to_unity]: the bridge afterwards, the value returned and
    what is done, for each state of the reply endpoint and each way the
    serialiser, the transport and the console can fail. *)
Lemma send_to_unity_run (env : Env) (message_dict : dict)
    (self : UnityPythonBridge) :
  self_after (send_to_unity env message_dict self) = self
  /\ result (send_to_unity env message_dict self)
     = Ok (match unity_address self with
           | Some dest =>
               negb (dumps_fails env message_dict)
               && negb (sendto_raises env message_dict dest)
               && negb (dict_str_raises env message_dict)
           | None => false
           end)
  /\ effects (send_to_unity env message_dict self)
     = match unity_address self with
       | Some dest =>
           if dumps_fails env message_dict then [Print LogSendError]
           else
             [ SendTo message_dict dest;
               Print (if sendto_raises env message_dict dest
                         || dict_str_raises env message_dict
                      then LogSendError
                      else LogSent message_dict) ]
       | None => [Print LogAddressNotSet]
       end.
Proof.
  unfold send_to_unity. rewrite read_then.
  destruct (unity_address self) as [dest|]; [| repeat split].
  unfold try_except, json_dumps, sendto, print_sent.
  destruct (dumps_fails env message_dict); [repeat split |].
  rewrite ret_then, bind_assoc, do_then_run.
  destruct (sendto_raises env message_dict dest); [repeat split |].
  rewrite ret_then.
  destruct (dict_str_raises env message_dict); repeat split.
Qed.

(** The methods are sequences of steps; each lemma below says what one step
    contributes to what an observer sees of the steps that follow it. *)
Section Steps.

Context {A : Type}.
Variable env : Env.
Variable self : UnityPythonBridge.
Variable rest : M A.

Lemma send_then (message_dict : dict) :
  self_after ((send_to_unity env message_dict ;; rest) self) = self_after (rest self)
  /\ sent (effects ((send_to_unity env message_dict ;; rest) self))
     = (handed_over env self message_dict ++ sent (effects (rest self)))%list
  /\ spawned (effects ((send_to_unity env message_dict ;; rest) self))
     = spawned (effects (rest self))
  /\ result ((send_to_unity env message_dict ;; rest) self) = result (rest self).
Proof.
  rewrite after_bind, effects_bind, result_bind, sent_app, spawned_app.
  destruct (send_to_unity_run env message_dict self) as (-> & -> & ->).
  unfold handed_over, reply_to.
  destruct (unity_address self) as [dest|];
    destruct (dumps_fails env message_dict); repeat split.
Qed.

Lemma do_then (e : effect) :
  self_after ((do e ;; rest) self) = self_after (rest self)
  /\ sent (effects ((do e ;; rest) self))
     = (sent [e] ++ sent (effects (rest self)))%list
  /\ spawned (effects ((do e ;; rest) self))
     = (spawned [e] ++ spawned (effects (rest self)))%list
  /\ result ((do e ;; rest) self) = result (rest self).
Proof. unfold bind, do; cbn. destruct e; repeat split. Qed.

(** A line that shows a value: the steps that follow are taken only if the
    value can be formatted and written. *)
Lemma print_showing_then (line : log_line) (v : value) :
  (print_showing env line v ;; rest) self
  = if str_raises env v then raise RecursionOrValueError self
    else if unencodable v then raise UnicodeEncodeError self
    else (do (Print line) ;; rest) self.
Proof.
  unfold print_showing, format. rewrite bind_assoc.
  destruct (str_raises env v); [reflexivity |].
  rewrite ret_then.
  destruct (unencodable v); reflexivity.
Qed.

Lemma format_then (v : value) :
  (format env v ;; rest) self
  = if str_raises env v then raise RecursionOrValueError self else rest self.
Proof.
  unfold format. destruct (str_raises env v); [reflexivity |].
  now rewrite ret_then.
Qed.

End Steps.

(** Takes the first step of the method in the goal. *)
Ltac step :=
  match goal with
  | |- context [bind (send_to_unity ?env ?m) (fun _ => ?n) ?self] =>
      let Hafter := fresh in
      let Hsent := fresh in
      let Hspawned := fresh in
      let Hresult := fresh in
      destruct (send_then env self n m) as (Hafter & Hsent & Hspawned & Hresult);
      rewrite ?Hafter, ?Hsent, ?Hspawned, ?Hresult;
      clear Hafter Hsent Hspawned Hresult
  | |- context [bind (do ?e) (fun _ => ?n) ?self] =>
      let Hafter := fresh in
      let Hsent := fresh in
      let Hspawned := fresh in
      let Hresult := fresh in
      destruct (do_then self n e) as (Hafter & Hsent & Hspawned & Hresult);
      rewrite ?Hafter, ?Hsent, ?Hspawned, ?Hresult;
      clear Hafter Hsent Hspawned Hresult
  | |- context [bind (ret ?a) ?k ?self] =>
      rewrite ret_then; cbv beta
  | |- context [bind (read ?f) ?k ?self] =>
      rewrite read_then; cbv beta
  end.

(** *** The dispatcher *)

Lemma dumps_fails_test_echo (env : Env) (fields : dict) :
  dumps_fails env (test_echo_response env fields)
  = dumps_gives_up env (get fields "data" (JString "")).
Proof. cbn. now rewrite !Bool.orb_false_r. Qed.

Lemma dumps_fails_unknown (env : Env) (cmd_type : value) :
  dumps_fails env (unknown_response env cmd_type) = dumps_gives_up env cmd_type.
Proof. cbn. now rewrite !Bool.orb_false_r. Qed.

(** Runs [process_command] on a mapping: one case for each way the first
    line can fail, each branch of the chain of comparisons, each way the
    serialiser can fail and each state of the reply endpoint. *)
Ltac close_branch self :=
  cbn; try destruct (unity_address self); reflexivity.

Ltac by_branch fields self :=
  unfold process_command; cbn [as_dict]; step;
  unfold handed, dies, envelopes;
  rewrite print_showing_then;
  let Hformat := fresh "Hformat" in
  destruct (str_raises _ (cmd_type_of fields)) eqn:Hformat; [close_branch self |];
  destruct (unencodable (cmd_type_of fields)); [close_branch self |];
  step;
  (destruct (eq_str (cmd_type_of fields) "ping");
    [| destruct (eq_str (cmd_type_of fields) "test_echo");
       [rewrite format_then;
        destruct (str_raises _ (get fields "data" (JString "")));
        [close_branch self |]
       | destruct (eq_str (cmd_type_of fields) "shake_hand");
          [| destruct (eq_str (cmd_type_of fields) "get_status");
             [| rewrite format_then, Hformat]]]]);
  repeat step;
  cbn [filter negb orb andb];
  unfold handed_over, reply_to;
  rewrite ?dumps_fails_test_echo, ?dumps_fails_unknown;
  repeat match goal with
    | |- context [dumps_gives_up ?e ?v] => destruct (dumps_gives_up e v)
    end;
  close_branch self.

Section Dispatch.

Variable env : Env.

(** [process_command] sends the envelopes that reach the transport to the
    reply endpoint when one is known, and nothing otherwise. *)
Lemma process_command_sent (command_dict : value) (self : UnityPythonBridge) :
  sent (effects (process_command env command_dict self))
  = match unity_address self with
    | Some dest => map (addressed dest) (handed env command_dict)
    | None => []
    end.
Proof.
  destruct command_dict as [| | | | |items|fields];
    try (destruct (unity_address self); reflexivity).
  by_branch fields self.
Qed.

(** Before any reply endpoint is learned, [send_to_unity] drops every
    envelope: a handler that runs then sends nothing. [listen] never starts
    one in that state (see [peer_document_answered]). *)
Lemma process_command_without_endpoint (command_dict : value)
    (self : UnityPythonBridge) :
  unity_address self = None ->
  sent (effects (process_command env command_dict self)) = [].
Proof. intros Hunset. now rewrite process_command_sent, Hunset. Qed.

(** [process_command] leaves the object as it found it. *)
Lemma process_command_reads_only (command_dict : value) (self : UnityPythonBridge) :
  self_after (process_command env command_dict self) = self.
Proof.
  destruct command_dict as [| | | | |items|fields]; try reflexivity.
  by_branch fields self.
Qed.

(** A handler thread starts no further thread. *)
Lemma process_command_spawns_nothing (command_dict : value) (self : UnityPythonBridge) :
  spawned (effects (process_command env command_dict self)) = [].
Proof.
  destruct command_dict as [| | | | |items|fields]; try reflexivity.
  by_branch fields self.
Qed.


(** An envelope that reaches the transport is one of those the branch
    builds. *)
Lemma handed_is_built (env' : Env) (command_dict : value) (message_dict : dict) :
  In message_dict (handed env' command_dict) ->
  In message_dict (envelopes env' command_dict).
Proof.
  destruct command_dict as [| | | | |items|fields]; try intros [].
  unfold handed. destruct (dies env' fields); [intros [] |].
  intros Hin. now apply filter_In in Hin.
Qed.

End Dispatch.

(** ** Basic facts about the receive loop *)

(** Takes the first step of the turn in the goal. *)
Ltac turn_step :=
  first [ rewrite bind_assoc | rewrite ret_then | rewrite read_then
        | rewrite raise_then | rewrite write_then | rewrite do_then_run ];
  cbv beta iota.

(** Splits on whatever the goal still branches on. *)
Ltac split_stuck :=
  repeat match goal with
    | |- context [if ?c then _ else _] => destruct c eqn:?; cbn
    | |- context [match ?x with _ => _ end] => destruct x eqn:?; cbn
    end.

(** One case for each thing the socket can deliver and each state of the
    bridge that the turn looks at. *)
Ltac by_received r self :=
  unfold listen_iteration, try_except, listen_body;
  destruct r as [|e|[|[| |v]] source];
  [ | destruct e | | | | ];
  cbn [recvfrom]; repeat turn_step;
  try (destruct (String.eqb (fst source) (pc_ip self)) eqn:?; repeat turn_step;
       try (destruct (unity_address self) eqn:?;
            cbn [decode_utf8 json_loads]; repeat turn_step;
            unfold print_received;
            try (destruct (unencodable v) eqn:?; repeat turn_step)));
  cbn; split_stuck; try congruence.

Lemma listen_iteration_address (r : received) (self : UnityPythonBridge) :
  unity_address (self_after (listen_iteration r self)) = learned r self.
Proof. unfold learned. by_received r self. Qed.

Lemma listen_iteration_spawned (r : received) (self : UnityPythonBridge) :
  spawned (effects (listen_iteration r self)) = dispatched r self.
Proof. unfold dispatched. by_received r self. Qed.

Lemma listen_iteration_sent (r : received) (self : UnityPythonBridge) :
  sent (effects (listen_iteration r self)) = [].
Proof. by_received r self. Qed.

Lemma listen_iteration_config (r : received) (self : UnityPythonBridge) :
  pc_ip (self_after (listen_iteration r self)) = pc_ip self
  /\ running (self_after (listen_iteration r self)) = running self
  /\ listen_port (self_after (listen_iteration r self)) = listen_port self.
Proof. by_received r self; repeat split; congruence. Qed.

(** No exception that is an [Exception] leaves a turn of the loop. *)
Lemma listen_iteration_result (r : received) (self : UnityPythonBridge) :
  result (listen_iteration r self)
  = match r with
    | RecvFails BaseExceptionOnly => Raised BaseExceptionOnly
    | _ => Ok tt
    end.
Proof. by_received r self. Qed.

(** A known reply endpoint survives any number of turns. *)
Lemma listen_loop_keeps_address (inputs : list received) :
  forall (self : UnityPythonBridge) (known : address),
    unity_address self = Some known ->
    unity_address (self_after (listen_loop inputs self)) = Some known.
Proof.
  induction inputs as [|r rest IH]; intros self known Hknown.
  - exact Hknown.
  - cbn [listen_loop]. unfold bind at 1, read; cbn.
    destruct (running self); [| exact Hknown].
    unfold bind.
    pose proof (listen_iteration_address r self) as Haddr.
    unfold learned in Haddr; rewrite Hknown in Haddr.
    destruct (result (listen_iteration r self)); cbn.
    + apply IH; exact Haddr.
    + exact Haddr.
Qed.

(** What the bridge sends on account of one turn is what the handler
    threads of that turn send, on the object as the turn left it. *)
Lemma responses_to_dispatched (env : Env) (r : received) (self : UnityPythonBridge) :
  responses_to env r self
  = flat_map (thread_sends env (self_after (listen_iteration r self)))
      (dispatched r self).
Proof.
  unfold responses_to.
  rewrite listen_iteration_sent, listen_iteration_spawned.
  reflexivity.
Qed.

(** A document from the peer host is answered with a reply endpoint in
    place: the one already known, or else the source of this datagram. *)
Lemma peer_document_answered (env : Env) (self : UnityPythonBridge)
    (command_dict : value) (source : address) :
  fst source = pc_ip self ->
  exists peer,
    unity_address
      (self_after (listen_iteration (Datagram (Utf8 (Document command_dict)) source) self))
    = Some peer
    /\ (unity_address self = None -> peer = source)
    /\ responses_to env (Datagram (Utf8 (Document command_dict)) source) self
       = map (addressed peer) (handed env command_dict).
Proof.
  intros Hhost.
  rewrite responses_to_dispatched, listen_iteration_address.
  unfold learned, dispatched, thread_sends.
  rewrite Hhost, String.eqb_refl.
  assert (Hsame :
    flat_map
      (fun c =>
         sent
           (effects
              (process_command env c
                 (self_after
                    (listen_iteration (Datagram (Utf8 (Document command_dict)) source)
                       self)))))
      (if unencodable command_dict then [] else [command_dict])
    = sent
        (effects
           (process_command env command_dict
              (self_after
                 (listen_iteration (Datagram (Utf8 (Document command_dict)) source)
                    self))))).
  { destruct command_dict as [| | | |s| |]; cbn [unencodable flat_map];
      try apply app_nil_r.
    destruct (has_surrogate s); [reflexivity | apply app_nil_r]. }
  rewrite Hsame, process_command_sent, listen_iteration_address.
  unfold learned; rewrite Hhost, String.eqb_refl.
  destruct (unity_address self) as [known|].
  - exists known. split; [reflexivity | split; [discriminate | reflexivity]].
  - exists source. split; [reflexivity | split; reflexivity].
Qed.

(** The branch of [process_command] that a command string selects. *)
Lemma envelopes_of_command (env : Env) (fields : dict) (c : string) :
  lookup "command" fields = Some (JString c) ->
  envelopes env (JObject fields)
  = if String.eqb c "ping" then [ping_response env]
    else if String.eqb c "test_echo" then [test_echo_response env fields]
    else if String.eqb c "shake_hand" then
      [shake_hand_acknowledged; shake_hand_in_progress; shake_hand_completed]
    else if String.eqb c "get_status" then [get_status_response]
    else [unknown_response env (JString c)].
Proof.
  intros Hc. unfold envelopes, cmd_type_of, get. rewrite Hc. reflexivity.
Qed.

Lemma cmd_type_of_command (fields : dict) (c : value) :
  lookup "command" fields = Some c -> cmd_type_of fields = c.
Proof.
  intros Hc. unfold cmd_type_of, get. now rewrite Hc.
Qed.

(** What reaches the transport for a command string: nothing when the
    string cannot be written to standard output, and otherwise the
    envelopes of its branch, but for an echo that cannot be formatted or
    serialised. *)
Lemma handed_of_cmd_type (env : Env) (fields : dict) (c : string) :
  cmd_type_of fields = JString c ->
  handed env (JObject fields)
  = if has_surrogate c then []
    else if String.eqb c "ping" then [ping_response env]
    else if String.eqb c "test_echo" then
      if str_raises env (get fields "data" (JString ""))
         || dumps_gives_up env (get fields "data" (JString ""))
      then []
      else [test_echo_response env fields]
    else if String.eqb c "shake_hand" then
      [shake_hand_acknowledged; shake_hand_in_progress; shake_hand_completed]
    else if String.eqb c "get_status" then [get_status_response]
    else [unknown_response env (JString c)].
Proof.
  intros Hc. unfold handed, dies, envelopes. rewrite Hc.
  cbn [str_raises unencodable eq_str orb].
  destruct (has_surrogate c); [reflexivity |].
  destruct (String.eqb c "ping"); [reflexivity |].
  destruct (String.eqb c "test_echo").
  { cbn [negb andb orb filter]. rewrite dumps_fails_test_echo.
    destruct (str_raises env _); [reflexivity |].
    cbn [orb]. destruct (dumps_gives_up env _); reflexivity. }
  cbn [negb andb orb].
  destruct (String.eqb c "shake_hand"); [reflexivity |].
  destruct (String.eqb c "get_status"); [reflexivity |].
  cbn [filter]. rewrite dumps_fails_unknown. reflexivity.
Qed.

Lemma handed_of_command (env : Env) (fields : dict) (c : string) :
  lookup "command" fields = Some (JString c) ->
  handed env (JObject fields)
  = if has_surrogate c then []
    else if String.eqb c "ping" then [ping_response env]
    else if String.eqb c "test_echo" then
      if str_raises env (get fields "data" (JString ""))
         || dumps_gives_up env (get fields "data" (JString ""))
      then []
      else [test_echo_response env fields]
    else if String.eqb c "shake_hand" then
      [shake_hand_acknowledged; shake_hand_in_progress; shake_hand_completed]
    else if String.eqb c "get_status" then [get_status_response]
    else [unknown_response env (JString c)].
Proof.
  intros Hc. apply handed_of_cmd_type, cmd_type_of_command, Hc.
Qed.

(** ** The command set *)

(** C1. A [shake_hand] envelope is answered by exactly three response
    envelopes, in the order [acknowledged], [in_progress], [completed], each
    with command [shake_hand]: that is what [process_command] sends to the
    reply endpoint, and what the bridge sends for any such envelope that
    [listen] takes from the peer host. *)
Theorem shake_hand_three_responses (env : Env) (self : UnityPythonBridge)
    (fields : dict) :
  lookup "command" fields = Some (JString "shake_hand") ->
  tagged "acknowledged" "shake_hand" shake_hand_acknowledged
  /\ tagged "in_progress" "shake_hand" shake_hand_in_progress
  /\ tagged "completed" "shake_hand" shake_hand_completed
  /\ (forall peer, unity_address self = Some peer ->
        sent (effects (process_command env (JObject fields) self))
        = [ (shake_hand_acknowledged, peer);
            (shake_hand_in_progress, peer);
            (shake_hand_completed, peer) ])
  /\ (forall source, fst source = pc_ip self ->
        exists peer,
          unity_address
            (self_after
               (listen_iteration (Datagram (Utf8 (Document (JObject fields))) source) self))
          = Some peer
          /\ responses_to env (Datagram (Utf8 (Document (JObject fields))) source) self
             = [ (shake_hand_acknowledged, peer);
                 (shake_hand_in_progress, peer);
                 (shake_hand_completed, peer) ]).
Proof.
  intros Hcmd.
  assert (Henv : handed env (JObject fields)
                 = [shake_hand_acknowledged; shake_hand_in_progress; shake_hand_completed])
    by (rewrite (handed_of_command env fields _ Hcmd); reflexivity).
  repeat split.
  - intros peer Hpeer. rewrite process_command_sent, Hpeer, Henv. reflexivity.
  - intros source Hhost.
    destruct (peer_document_answered env self (JObject fields) source Hhost)
      as (peer & Hlearn & _ & Hsent).
    exists peer. rewrite Hsent, Henv. split; [exact Hlearn | reflexivity].
Qed.

Lemma shake_hand_three_responses_witness :
  lookup "command" [("command", JString "shake_hand")] = Some (JString "shake_hand")
  /\ responses_to lab_env
       (Datagram (Utf8 (Document (JObject [("command", JString "shake_hand")])))
          (unity_pc, 50000%Z))
       fresh_bridge
     = [ (shake_hand_acknowledged, (unity_pc, 50000%Z));
         (shake_hand_in_progress, (unity_pc, 50000%Z));
         (shake_hand_completed, (unity_pc, 50000%Z)) ].
Proof.
  split; [reflexivity |].
  destruct (shake_hand_three_responses lab_env fresh_bridge
              [("command", JString "shake_hand")] eq_refl)
    as (_ & _ & _ & _ & Hloop).
  destruct (Hloop (unity_pc, 50000%Z) eq_refl) as (peer & Hlearn & Hsent).
  cbn in Hlearn. injection Hlearn as <-. exact Hsent.
Defined.

(** C2, as the specification states it, fails: the handler of a
    [test_echo] whose [data] is nested 991 deep builds the response, but
    [json.dumps] raises on it inside [send_to_unity], which catches the
    error and sends nothing. *)
Lemma deep_echo_counterexample :
  lookup "command" deep_echo = Some (JString "test_echo")
  /\ lookup "echo_data" (test_echo_response cramped_env deep_echo)
     = lookup "data" deep_echo
  /\ sent (effects (process_command cramped_env (JObject deep_echo)
                      (set_unity_address (unity_pc, 50000%Z) fresh_bridge)))
     = []
  /\ responses_to cramped_env
       (Datagram (Utf8 (Document (JObject deep_echo))) (unity_pc, 50000%Z))
       fresh_bridge
     = [].
Proof.
  assert (Hnone : handed cramped_env (JObject deep_echo) = []).
  { rewrite (handed_of_command cramped_env deep_echo "test_echo" eq_refl).
    vm_compute. reflexivity. }
  split; [reflexivity |]. split; [reflexivity |]. split.
  - now rewrite process_command_sent, Hnone.
  - destruct (peer_document_answered cramped_env fresh_bridge (JObject deep_echo)
                (unity_pc, 50000%Z) eq_refl) as (peer & _ & _ & ->).
    now rewrite Hnone.
Qed.

(** C2, amended. A [test_echo] envelope whose [data] can be formatted is
    answered by one response whose [echo_data] is the envelope's [data],
    whatever value that is, and the empty string when the envelope has no
    [data], provided [json.dumps] serialises the response; when it does not,
    [send_to_unity] catches the error and nothing is sent. A [data] that is
    a [str], or absent, is always formatted and serialised. *)
Theorem test_echo_round_trip (env : Env) (self : UnityPythonBridge)
    (fields : dict) :
  lookup "command" fields = Some (JString "test_echo") ->
  str_raises env (get fields "data" (JString "")) = false ->
  tagged "success" "test_echo" (test_echo_response env fields)
  /\ (forall x, lookup "data" fields = Some x ->
        lookup "echo_data" (test_echo_response env fields) = Some x)
  /\ (lookup "data" fields = None ->
        lookup "echo_data" (test_echo_response env fields) = Some (JString ""))
  /\ (forall peer, unity_address self = Some peer ->
        sent (effects (process_command env (JObject fields) self))
        = if dumps_gives_up env (get fields "data" (JString "")) then []
          else [ (test_echo_response env fields, peer) ])
  /\ (forall source, fst source = pc_ip self ->
        exists peer,
          unity_address
            (self_after
               (listen_iteration (Datagram (Utf8 (Document (JObject fields))) source) self))
          = Some peer
          /\ responses_to env (Datagram (Utf8 (Document (JObject fields))) source) self
             = if dumps_gives_up env (get fields "data" (JString "")) then []
               else [ (test_echo_response env fields, peer) ])
  /\ (forall s, get fields "data" (JString "") = JString s ->
        str_raises env (get fields "data" (JString "")) = false
        /\ dumps_gives_up env (get fields "data" (JString "")) = false).
Proof.
  intros Hcmd Hformat.
  assert (Henv : handed env (JObject fields)
                 = if dumps_gives_up env (get fields "data" (JString "")) then []
                   else [test_echo_response env fields]).
  { rewrite (handed_of_command env fields _ Hcmd), Hformat. reflexivity. }
  split; [split; reflexivity |].
  split; [intros x Hx; cbn; unfold get; rewrite Hx; reflexivity |].
  split; [intros Hnone; cbn; unfold get; rewrite Hnone; reflexivity |].
  split; [| split].
  - intros peer Hpeer. rewrite process_command_sent, Hpeer, Henv.
    destruct (dumps_gives_up env _); reflexivity.
  - intros source Hhost.
    destruct (peer_document_answered env self (JObject fields) source Hhost)
      as (peer & Hlearn & _ & Hsent).
    exists peer. rewrite Hsent, Henv. split; [exact Hlearn |].
    destruct (dumps_gives_up env _); reflexivity.
  - intros s ->. split; reflexivity.
Qed.

Lemma test_echo_round_trip_witness :
  lookup "command" [("command", JString "test_echo"); ("data", JList [JInt 1; JNull])]
  = Some (JString "test_echo")
  /\ str_raises lab_env
       (get [("command", JString "test_echo"); ("data", JList [JInt 1; JNull])]
          "data" (JString ""))
     = false
  /\ lookup "echo_data"
       (test_echo_response lab_env
          [("command", JString "test_echo"); ("data", JList [JInt 1; JNull])])
     = Some (JList [JInt 1; JNull])
  /\ sent (effects (process_command lab_env
                      (JObject [("command", JString "test_echo");
                                ("data", JList [JInt 1; JNull])])
                      (set_unity_address (unity_pc, 50000%Z) fresh_bridge)))
     = [ (test_echo_response lab_env
            [("command", JString "test_echo"); ("data", JList [JInt 1; JNull])],
          (unity_pc, 50000%Z)) ].
Proof.
  split; [reflexivity |]. split; [reflexivity |].
  destruct (test_echo_round_trip lab_env
              (set_unity_address (unity_pc, 50000%Z) fresh_bridge)
              [("command", JString "test_echo"); ("data", JList [JInt 1; JNull])]
              eq_refl eq_refl)
    as (_ & Hdata & _ & Hsent & _).
  split; [apply Hdata; reflexivity |].
  exact (Hsent (unity_pc, 50000%Z) eq_refl).
Defined.

(** C3. A [ping] envelope is answered by exactly one response envelope,
    with status [success] and command [ping]. *)
Theorem ping_one_success (env : Env) (self : UnityPythonBridge) (fields : dict) :
  lookup "command" fields = Some (JString "ping") ->
  tagged "success" "ping" (ping_response env)
  /\ (forall peer, unity_address self = Some peer ->
        sent (effects (process_command env (JObject fields) self))
        = [ (ping_response env, peer) ])
  /\ (forall source, fst source = pc_ip self ->
        exists peer,
          unity_address
            (self_after
               (listen_iteration (Datagram (Utf8 (Document (JObject fields))) source) self))
          = Some peer
          /\ responses_to env (Datagram (Utf8 (Document (JObject fields))) source) self
             = [ (ping_response env, peer) ]).
Proof.
  intros Hcmd.
  assert (Henv : handed env (JObject fields)
                 = [ping_response env])
    by (rewrite (handed_of_command env fields _ Hcmd); reflexivity).
  split; [split; reflexivity |].
  split.
  - intros peer Hpeer. rewrite process_command_sent, Hpeer, Henv. reflexivity.
  - intros source Hhost.
    destruct (peer_document_answered env self (JObject fields) source Hhost)
      as (peer & Hlearn & _ & Hsent).
    exists peer. rewrite Hsent, Henv. split; [exact Hlearn | reflexivity].
Qed.

Lemma ping_one_success_witness :
  lookup "command" [("command", JString "ping")] = Some (JString "ping")
  /\ sent (effects (process_command lab_env (JObject [("command", JString "ping")])
                      (set_unity_address (unity_pc, 50000%Z) fresh_bridge)))
     = [ (ping_response lab_env, (unity_pc, 50000%Z)) ].
Proof.
  split; [reflexivity |].
  destruct (ping_one_success lab_env
              (set_unity_address (unity_pc, 50000%Z) fresh_bridge)
              [("command", JString "ping")] eq_refl)
    as (_ & Hsent & _).
  apply Hsent. reflexivity.
Defined.

Lemma append_empty (s : string) : s ++ "" = s.
Proof. induction s as [|a s IH]; cbn; [reflexivity | now rewrite IH]. Qed.

Lemma contains_suffix (prefix s : string) : contains (prefix ++ s) s.
Proof. exists prefix, "". now rewrite append_empty. Qed.

Lemma eq_str_true (v : value) (s : string) : eq_str v s = true -> v = JString s.
Proof.
  destruct v; cbn; try discriminate.
  intros H; apply String.eqb_eq in H; now subst.
Qed.

(** The [else] branch of the dispatcher, on every command string that
    standard output can take: an envelope whose command string is none of
    [ping], [test_echo], [get_status], [shake_hand] is answered by exactly
    one response envelope, with status [error], naming the command and with
    a [message] that contains the command string. *)
Theorem unknown_command_one_error (env : Env) (self : UnityPythonBridge)
    (fields : dict) (c : string) :
  lookup "command" fields = Some (JString c) ->
  ~ In c ["ping"; "test_echo"; "get_status"; "shake_hand"] ->
  has_surrogate c = false ->
  tagged "error" c (unknown_response env (JString c))
  /\ lookup "message" (unknown_response env (JString c))
     = Some (JString ("Unknown command: " ++ c))
  /\ contains ("Unknown command: " ++ c) c
  /\ (forall peer, unity_address self = Some peer ->
        sent (effects (process_command env (JObject fields) self))
        = [ (unknown_response env (JString c), peer) ])
  /\ (forall source, fst source = pc_ip self ->
        exists peer,
          unity_address
            (self_after
               (listen_iteration (Datagram (Utf8 (Document (JObject fields))) source) self))
          = Some peer
          /\ responses_to env (Datagram (Utf8 (Document (JObject fields))) source) self
             = [ (unknown_response env (JString c), peer) ]).
Proof.
  intros Hcmd Hother Hwritable.
  assert (Henv : handed env (JObject fields) = [unknown_response env (JString c)]).
  { rewrite (handed_of_command env fields c Hcmd), Hwritable.
    cbn [In] in Hother.
    destruct (String.eqb_spec c "ping") as [->|_]; [tauto |].
    destruct (String.eqb_spec c "test_echo") as [->|_]; [tauto |].
    destruct (String.eqb_spec c "shake_hand") as [->|_]; [tauto |].
    destruct (String.eqb_spec c "get_status") as [->|_]; [tauto |].
    reflexivity. }
  split; [split; reflexivity |].
  split; [reflexivity |].
  split; [apply contains_suffix |].
  split.
  - intros peer Hpeer. rewrite process_command_sent, Hpeer, Henv. reflexivity.
  - intros source Hhost.
    destruct (peer_document_answered env self (JObject fields) source Hhost)
      as (peer & Hlearn & _ & Hsent).
    exists peer. rewrite Hsent, Henv. split; [exact Hlearn | reflexivity].
Qed.

Lemma not_a_command_dance :
  ~ In "dance" ["ping"; "test_echo"; "get_status"; "shake_hand"].
Proof. cbn. intros [H|[H|[H|[H|[]]]]]; discriminate H. Defined.

Lemma unknown_command_one_error_witness :
  lookup "command" [("command", JString "dance")] = Some (JString "dance")
  /\ sent (effects (process_command lab_env (JObject [("command", JString "dance")])
                      (set_unity_address (unity_pc, 50000%Z) fresh_bridge)))
     = [ (unknown_response lab_env (JString "dance"), (unity_pc, 50000%Z)) ].
Proof.
  split; [reflexivity |].
  destruct (unknown_command_one_error lab_env
              (set_unity_address (unity_pc, 50000%Z) fresh_bridge)
              [("command", JString "dance")] "dance" eq_refl not_a_command_dance
              eq_refl)
    as (_ & _ & _ & Hsent & _).
  apply Hsent. reflexivity.
Defined.

(** C4 at the envelope [{"command": "\ud800"}]: the command is none of the
    four names, the loop dispatches the envelope, and the handler dies on
    the first line it prints, which is outside any [try]: the peer gets no
    response, neither the [error] that the specification promises nor any
    other. *)
Lemma unprintable_command_unanswered :
  ~ In lone_surrogate ["ping"; "test_echo"; "get_status"; "shake_hand"]
  /\ spawned
       (effects
          (listen_iteration
             (Datagram (Utf8 (Document (JObject [("command", JString lone_surrogate)])))
                (unity_pc, 50000%Z))
             fresh_bridge))
     = [JObject [("command", JString lone_surrogate)]]
  /\ result
       (process_command lab_env (JObject [("command", JString lone_surrogate)])
          (set_unity_address (unity_pc, 50000%Z) fresh_bridge))
     = Raised UnicodeEncodeError
  /\ effects
       (process_command lab_env (JObject [("command", JString lone_surrogate)])
          (set_unity_address (unity_pc, 50000%Z) fresh_bridge))
     = []
  /\ responses_to lab_env
       (Datagram (Utf8 (Document (JObject [("command", JString lone_surrogate)])))
          (unity_pc, 50000%Z))
       fresh_bridge
     = [].
Proof.
  split.
  { cbn. intros [H|[H|[H|[H|[]]]]]; discriminate H. }
  repeat split.
Qed.

(** C9. Every response envelope that [process_command] sends, for any
    input, has a [status] among [success], [error], [acknowledged],
    [in_progress], [completed], and a [command] that is the command
    identifier read from the envelope it answers (the envelope's [command]
    whenever it has one). *)
Theorem response_envelope_shape (env : Env) (self : UnityPythonBridge)
    (command_dict : value) (message_dict : dict) (dest : address) :
  In (message_dict, dest) (sent (effects (process_command env command_dict self))) ->
  (exists status,
      lookup "status" message_dict = Some (JString status)
      /\ In status ["success"; "error"; "acknowledged"; "in_progress"; "completed"])
  /\ exists fields,
      command_dict = JObject fields
      /\ lookup "command" message_dict = Some (cmd_type_of fields)
      /\ (forall c, lookup "command" fields = Some c ->
            lookup "command" message_dict = Some c).
Proof.
  rewrite process_command_sent.
  destruct (unity_address self) as [peer|]; [| intros []].
  intros Hin. apply in_map_iff in Hin as (m & Hm & Hin).
  injection Hm as -> _. apply handed_is_built in Hin.
  destruct command_dict as [| | | | |items|fields]; try contradiction.
  assert (Hecho : forall c, lookup "command" fields = Some c -> cmd_type_of fields = c).
  { intros c Hc. unfold cmd_type_of, get. now rewrite Hc. }
  assert (Hgoal :
    (exists status,
        lookup "status" message_dict = Some (JString status)
        /\ In status ["success"; "error"; "acknowledged"; "in_progress"; "completed"])
    /\ lookup "command" message_dict = Some (cmd_type_of fields)).
  { unfold envelopes in Hin.
    destruct (eq_str (cmd_type_of fields) "ping") eqn:Hping.
    { apply eq_str_true in Hping. destruct Hin as [<-|[]]. rewrite Hping.
      split; [exists "success"; cbn; auto | reflexivity]. }
    destruct (eq_str (cmd_type_of fields) "test_echo") eqn:Hecho'.
    { apply eq_str_true in Hecho'. destruct Hin as [<-|[]]. rewrite Hecho'.
      split; [exists "success"; cbn; auto | reflexivity]. }
    destruct (eq_str (cmd_type_of fields) "shake_hand") eqn:Hshake.
    { apply eq_str_true in Hshake. rewrite Hshake.
      destruct Hin as [<-|[<-|[<-|[]]]];
        (split; [eexists; split; [reflexivity | cbn; auto 6] | reflexivity]). }
    destruct (eq_str (cmd_type_of fields) "get_status") eqn:Hstatus.
    { apply eq_str_true in Hstatus. destruct Hin as [<-|[]]. rewrite Hstatus.
      split; [exists "success"; cbn; auto | reflexivity]. }
    destruct Hin as [<-|[]].
    split; [exists "error"; cbn; auto | reflexivity]. }
  destruct Hgoal as [Hstatus Hcommand].
  split; [exact Hstatus |].
  exists fields. split; [reflexivity |]. split; [exact Hcommand |].
  intros c Hc. rewrite Hcommand. f_equal. apply Hecho, Hc.
Qed.

Lemma response_envelope_shape_witness :
  In (get_status_response, (unity_pc, 50000%Z))
     (sent (effects (process_command lab_env
                       (JObject [("command", JString "get_status")])
                       (set_unity_address (unity_pc, 50000%Z) fresh_bridge))))
  /\ exists status,
       lookup "status" get_status_response = Some (JString status)
       /\ In status ["success"; "error"; "acknowledged"; "in_progress"; "completed"].
Proof.
  assert (Hin : In (get_status_response, (unity_pc, 50000%Z))
     (sent (effects (process_command lab_env
                       (JObject [("command", JString "get_status")])
                       (set_unity_address (unity_pc, 50000%Z) fresh_bridge)))))
    by (left; reflexivity).
  split; [exact Hin |].
  exact (proj1 (response_envelope_shape _ _ _ _ _ Hin)).
Defined.

(** ** Envelopes without a command *)




(** ** The reply endpoint *)

(** C6, as the specification states it, fails: the peer sends from port
    50000 and then from port 50001; after both datagrams the reply endpoint
    is still the first source, not the source of the datagram just
    processed. *)
Lemma reply_endpoint_counterexample :
  let first :=
    Datagram (Utf8 (Document (JObject [("command", JString "ping")])))
      (unity_pc, 50000%Z) in
  let second :=
    Datagram (Utf8 (Document (JObject [("command", JString "ping")])))
      (unity_pc, 50001%Z) in
  let self := self_after (listen [first; second] (init unity_pc 5005)) in
  unity_address self = Some (unity_pc, 50000%Z)
  /\ unity_address self <> Some (unity_pc, 50001%Z).
Proof. cbv zeta. split; [reflexivity | discriminate]. Qed.

(** C6, amended. On a datagram whose source host is the configured peer
    host, the reply endpoint is set to the datagram's source only while it
    is unset; once learned it is kept, on this turn and on every later one. *)
Theorem reply_endpoint_learned_once (self : UnityPythonBridge) (data : bytes)
    (source : address) :
  fst source = pc_ip self ->
  unity_address (self_after (listen_iteration (Datagram data source) self))
  = Some (match unity_address self with
          | Some known => known
          | None => source
          end)
  /\ forall (known : address) (inputs : list received),
       unity_address self = Some known ->
       unity_address (self_after (listen_loop inputs self)) = Some known.
Proof.
  intros Hhost. split.
  - rewrite listen_iteration_address. unfold learned.
    rewrite Hhost, String.eqb_refl.
    destruct (unity_address self); reflexivity.
  - intros known inputs Hknown. now apply listen_loop_keeps_address.
Qed.

Lemma reply_endpoint_learned_once_witness :
  fst (unity_pc, 50001%Z) = pc_ip (set_unity_address (unity_pc, 50000%Z) fresh_bridge)
  /\ unity_address
       (self_after
          (listen_iteration (Datagram (Utf8 NotJson) (unity_pc, 50001%Z))
             (set_unity_address (unity_pc, 50000%Z) fresh_bridge)))
     = Some (unity_pc, 50000%Z).
Proof.
  split; [reflexivity |].
  exact (proj1 (reply_endpoint_learned_once
                  (set_unity_address (unity_pc, 50000%Z) fresh_bridge)
                  (Utf8 NotJson) (unity_pc, 50001%Z) eq_refl)).
Defined.

(** While the bridge is running, a turn that raises nothing is followed by
    the rest of the loop. *)
Lemma listen_loop_step (r : received) (rest : list received)
    (self : UnityPythonBridge) :
  running self = true ->
  result (listen_iteration r self) = Ok tt ->
  self_after (listen_loop (r :: rest) self)
  = self_after (listen_loop rest (self_after (listen_iteration r self)))
  /\ effects (listen_loop (r :: rest) self)
     = (effects (listen_iteration r self)
          ++ effects (listen_loop rest (self_after (listen_iteration r self))))%list
  /\ result (listen_loop (r :: rest) self)
     = result (listen_loop rest (self_after (listen_iteration r self))).
Proof.
  intros Hrun Hok.
  cbn [listen_loop]. unfold bind at 1 3 5, read; cbn.
  rewrite Hrun. unfold bind. rewrite Hok. cbn. repeat split.
Qed.

(** Whatever reply endpoint the loop ends with was there at the start or is
    the source of a datagram from the configured peer host. *)
Lemma listen_loop_address_origin (inputs : list received) :
  forall (self : UnityPythonBridge) (peer : address),
    unity_address (self_after (listen_loop inputs self)) = Some peer ->
    unity_address self = Some peer
    \/ exists data, In (Datagram data peer) inputs /\ fst peer = pc_ip self.
Proof.
  induction inputs as [|r rest IH]; intros self peer Hend.
  - left; exact Hend.
  - cbn [listen_loop] in Hend. unfold bind at 1, read in Hend; cbn in Hend.
    destruct (running self); [| left; exact Hend].
    pose proof (listen_iteration_address r self) as Haddr.
    destruct (listen_iteration_config r self) as (Hip & _ & _).
    assert (Hturn :
      unity_address (self_after (listen_iteration r self)) = Some peer ->
      unity_address self = Some peer
      \/ exists data, In (Datagram data peer) (r :: rest) /\ fst peer = pc_ip self).
    { rewrite Haddr. unfold learned.
      destruct (unity_address self) as [known|]; [now left |].
      destruct r as [|e|data source]; try discriminate.
      destruct (String.eqb_spec (fst source) (pc_ip self)) as [Heq|_];
        [| discriminate].
      intros [= ->]. right. exists data. split; [now left | exact Heq]. }
    unfold bind in Hend.
    destruct (result (listen_iteration r self)); cbn in Hend.
    + destruct (IH _ _ Hend) as [Hnow|(data & Hin & Hhost)].
      * exact (Hturn Hnow).
      * right. exists data. split; [now right | now rewrite <- Hip].
    + exact (Hturn Hend).
Qed.

(** C7. A datagram whose source host is not the configured peer host is
    answered by nothing and leaves the bridge, its reply endpoint included,
    as it was; and the reply endpoint only ever changes to the source of a
    datagram that came from the configured peer host. *)
Theorem foreign_host_ignored (env : Env) (self : UnityPythonBridge) :
  (forall data source,
      fst source <> pc_ip self ->
      self_after (listen_iteration (Datagram data source) self) = self
      /\ effects (listen_iteration (Datagram data source) self)
         = [Print (LogUnexpectedIP (fst source))]
      /\ result (listen_iteration (Datagram data source) self) = Ok tt
      /\ responses_to env (Datagram data source) self = [])
  /\ (forall r,
        unity_address (self_after (listen_iteration r self)) <> unity_address self ->
        exists data source,
          r = Datagram data source
          /\ fst source = pc_ip self
          /\ unity_address (self_after (listen_iteration r self)) = Some source)
  /\ (forall inputs peer,
        unity_address (self_after (listen_loop inputs self)) = Some peer ->
        unity_address self = Some peer
        \/ exists data, In (Datagram data peer) inputs /\ fst peer = pc_ip self).
Proof.
  split; [| split].
  - intros data source Hforeign.
    apply String.eqb_neq in Hforeign.
    assert (Hrun : listen_iteration (Datagram data source) self
                   = {| self_after := self;
                        effects := [Print (LogUnexpectedIP (fst source))];
                        result := Ok tt |}).
    { unfold listen_iteration, try_except, listen_body; cbn [recvfrom].
      repeat turn_step. rewrite Hforeign. reflexivity. }
    unfold responses_to. rewrite Hrun. repeat split.
  - intros r Hchanged.
    rewrite listen_iteration_address in *. unfold learned in *.
    destruct (unity_address self) as [known|]; [contradiction |].
    destruct r as [|e|data source]; try contradiction.
    destruct (String.eqb_spec (fst source) (pc_ip self)) as [Heq|_];
      [| contradiction].
    exists data, source. repeat split. exact Heq.
  - intros inputs peer. apply listen_loop_address_origin.
Qed.

Lemma foreign_host_ignored_witness :
  fst ("192.168.123.99", 40000%Z) <> pc_ip fresh_bridge
  /\ responses_to lab_env
       (Datagram (Utf8 (Document (JObject [("command", JString "ping")])))
          ("192.168.123.99", 40000%Z))
       fresh_bridge
     = [].
Proof.
  assert (Hforeign : fst ("192.168.123.99", 40000%Z) <> pc_ip fresh_bridge)
    by (cbn; discriminate).
  split; [exact Hforeign |].
  destruct (foreign_host_ignored lab_env fresh_bridge) as [Hdrop _].
  destruct (Hdrop (Utf8 (Document (JObject [("command", JString "ping")])))
              ("192.168.123.99", 40000%Z) Hforeign)
    as (_ & _ & _ & Hnone).
  exact Hnone.
Defined.

(** A datagram that cannot be decoded starts no handler thread and raises
    nothing past the [except] clauses. *)
Lemma undecodable_turn (self : UnityPythonBridge) (data : bytes) (source : address) :
  undecodable data = true ->
  result (listen_iteration (Datagram data source) self) = Ok tt
  /\ sent (effects (listen_iteration (Datagram data source) self)) = []
  /\ spawned (effects (listen_iteration (Datagram data source) self)) = [].
Proof.
  intros Hbad.
  rewrite listen_iteration_result, listen_iteration_sent, listen_iteration_spawned.
  destruct data as [|[| |v]]; try discriminate Hbad; repeat split.
Qed.

Lemma not_json_undecodable (data : bytes) :
  not_json data = true -> undecodable data = true.
Proof. destruct data as [|[| |v]]; cbn; congruence. Qed.

(** ** Malformed input *)

(** C8. A datagram whose payload is not valid JSON is answered by nothing,
    and the turn of the loop that reads it ends normally: nothing is raised,
    the bridge keeps running, the loop goes on with what the socket delivers
    next, and a document from the peer that follows is dispatched: every
    mapping, and every other document that the loop can print. *)
Theorem malformed_json_survived (env : Env) (self : UnityPythonBridge)
    (data : bytes) (source : address) :
  not_json data = true ->
  result (listen_iteration (Datagram data source) self) = Ok tt
  /\ responses_to env (Datagram data source) self = []
  /\ spawned (effects (listen_iteration (Datagram data source) self)) = []
  /\ running (self_after (listen_iteration (Datagram data source) self))
     = running self
  /\ (forall rest,
        running self = true ->
        effects (listen_loop (Datagram data source :: rest) self)
        = (effects (listen_iteration (Datagram data source) self)
             ++ effects
                  (listen_loop rest
                     (self_after (listen_iteration (Datagram data source) self))))%list)
  /\ (forall command_dict peer_source,
        running self = true ->
        fst peer_source = pc_ip self ->
        spawned
          (effects
             (listen_loop
                [ Datagram data source;
                  Datagram (Utf8 (Document command_dict)) peer_source ]
                self))
        = if unencodable command_dict then [] else [command_dict])
  /\ (forall fields peer_source,
        running self = true ->
        fst peer_source = pc_ip self ->
        spawned
          (effects
             (listen_loop
                [ Datagram data source;
                  Datagram (Utf8 (Document (JObject fields))) peer_source ]
                self))
        = [JObject fields]).
Proof.
  intros Hbad. apply not_json_undecodable in Hbad.
  destruct (undecodable_turn self data source Hbad) as (Hok & Hsent & Hspawn).
  destruct (listen_iteration_config (Datagram data source) self)
    as (Hip & Hrun & _).
  split; [exact Hok |].
  split; [unfold responses_to; now rewrite Hsent, Hspawn |].
  split; [exact Hspawn |].
  split; [exact Hrun |].
  split.
  { intros rest Hrunning.
    now destruct (listen_loop_step _ rest self Hrunning Hok) as (_ & Heff & _). }
  assert (Hnext : forall command_dict peer_source,
    running self = true ->
    fst peer_source = pc_ip self ->
    spawned
      (effects
         (listen_loop
            [ Datagram data source;
              Datagram (Utf8 (Document command_dict)) peer_source ]
            self))
    = if unencodable command_dict then [] else [command_dict]).
  { intros command_dict peer_source Hrunning Hhost.
    destruct (listen_loop_step _
                [Datagram (Utf8 (Document command_dict)) peer_source]
                self Hrunning Hok) as (_ & -> & _).
    rewrite spawned_app, Hspawn; cbn [app].
    set (self' := self_after (listen_iteration (Datagram data source) self)) in *.
    assert (Hok' :
      result (listen_iteration (Datagram (Utf8 (Document command_dict)) peer_source) self')
      = Ok tt) by apply listen_iteration_result.
    assert (Hrunning' : running self' = true) by congruence.
    destruct (listen_loop_step _ [] self' Hrunning' Hok') as (_ & -> & _).
    rewrite spawned_app, listen_iteration_spawned. unfold dispatched.
    rewrite Hip, Hhost, String.eqb_refl.
    destruct (unencodable command_dict); reflexivity. }
  split; [exact Hnext |].
  intros fields peer_source Hrunning Hhost.
  exact (Hnext (JObject fields) peer_source Hrunning Hhost).
Qed.

Lemma malformed_json_survived_witness :
  not_json (Utf8 NotJson) = true
  /\ spawned
       (effects
          (listen_loop
             [ Datagram (Utf8 NotJson) (unity_pc, 50000%Z);
               Datagram (Utf8 (Document (JObject [("command", JString "ping")])))
                 (unity_pc, 50000%Z) ]
             fresh_bridge))
     = [JObject [("command", JString "ping")]].
Proof.
  split; [reflexivity |].
  destruct (malformed_json_survived lab_env fresh_bridge (Utf8 NotJson)
              (unity_pc, 50000%Z) eq_refl)
    as (_ & _ & _ & _ & _ & _ & Hnext).
  apply Hnext; reflexivity.
Defined.

(** C10. With no reply endpoint learned yet, a datagram from the configured
    peer host that cannot be decoded still sets the reply endpoint to its
    source: the endpoint is learned before the payload is decoded. *)
Theorem malformed_datagram_teaches_endpoint (self : UnityPythonBridge)
    (data : bytes) (source : address) :
  unity_address self = None ->
  fst source = pc_ip self ->
  undecodable data = true ->
  unity_address (self_after (listen_iteration (Datagram data source) self))
  = Some source
  /\ spawned (effects (listen_iteration (Datagram data source) self)) = []
  /\ result (listen_iteration (Datagram data source) self) = Ok tt.
Proof.
  intros Hunset Hhost Hbad.
  destruct (undecodable_turn self data source Hbad) as (Hok & _ & Hspawn).
  split; [| split; assumption].
  rewrite listen_iteration_address. unfold learned.
  now rewrite Hunset, Hhost, String.eqb_refl.
Qed.

Lemma malformed_datagram_teaches_endpoint_witness :
  unity_address fresh_bridge = None
  /\ fst (unity_pc, 50000%Z) = pc_ip fresh_bridge
  /\ undecodable NotUtf8 = true
  /\ unity_address
       (self_after (listen_iteration (Datagram NotUtf8 (unity_pc, 50000%Z)) fresh_bridge))
     = Some (unity_pc, 50000%Z).
Proof.
  repeat (split; [reflexivity |]).
  exact (proj1 (malformed_datagram_teaches_endpoint fresh_bridge NotUtf8
                  (unity_pc, 50000%Z) eq_refl eq_refl eq_refl)).
Defined.

(** * Further properties of the bridge *)

(** ** The reply path *)

(** X1. [send_to_unity] never raises and never changes the bridge. It
    returns [True] exactly when a reply endpoint is known, [json.dumps]
    serialises the envelope, the transport takes the datagram and the line
    that reports it is printed. It hands the transport one datagram when an
    endpoint is known and [json.dumps] serialises the envelope, even if the
    transport then refuses it, and none otherwise: an envelope that
    [json.dumps] raises on never reaches [sock.sendto]. *)
Theorem send_to_unity_outcome (env : Env) (message_dict : dict)
    (self : UnityPythonBridge) :
  self_after (send_to_unity env message_dict self) = self
  /\ (exists returned, result (send_to_unity env message_dict self) = Ok returned)
  /\ (result (send_to_unity env message_dict self) = Ok true
      <-> exists dest,
            unity_address self = Some dest
            /\ dumps_fails env message_dict = false
            /\ sendto_raises env message_dict dest = false
            /\ dict_str_raises env message_dict = false)
  /\ sent (effects (send_to_unity env message_dict self))
     = match unity_address self with
       | Some dest =>
           if dumps_fails env message_dict then [] else [(message_dict, dest)]
       | None => []
       end.
Proof.
  destruct (send_to_unity_run env message_dict self) as (Hself & Hresult & Heffects).
  split; [exact Hself |].
  split; [eexists; exact Hresult |].
  split.
  - rewrite Hresult. split.
    + intros [= Htrue].
      destruct (unity_address self) as [dest|]; [| discriminate Htrue].
      exists dest. split; [reflexivity |].
      apply Bool.andb_true_iff in Htrue as [Htrue Hprint].
      apply Bool.andb_true_iff in Htrue as [Hdumps Hsend].
      repeat split; now apply Bool.negb_true_iff.
    + intros (dest & -> & -> & -> & ->). reflexivity.
  - rewrite Heffects.
    destruct (unity_address self); [| reflexivity].
    destruct (dumps_fails env message_dict); reflexivity.
Qed.

Lemma effects_send_then {A : Type} (env : Env) (message_dict : dict)
    (rest : M A) (self : UnityPythonBridge) :
  effects ((send_to_unity env message_dict ;; rest) self)
  = (effects (send_to_unity env message_dict self) ++ effects (rest self))%list.
Proof.
  rewrite effects_bind.
  destruct (send_to_unity_run env message_dict self) as (-> & -> & _).
  reflexivity.
Qed.


Lemma effects_do_then {A : Type} (e : effect) (rest : M A)
    (self : UnityPythonBridge) :
  effects ((do e ;; rest) self) = e :: effects (rest self).
Proof. reflexivity. Qed.

Lemma send_to_unity_quiet (env : Env) (message_dict : dict)
    (self : UnityPythonBridge) :
  slept (effects (send_to_unity env message_dict self)) = 0%Z
  /\ timeline (effects (send_to_unity env message_dict self))
     = match unity_address self with
       | Some dest =>
           if dumps_fails env message_dict then [] else [SendTo message_dict dest]
       | None => []
       end.
Proof.
  destruct (send_to_unity_run env message_dict self) as (_ & _ & ->).
  destruct (unity_address self); [| split; reflexivity].
  destruct (dumps_fails env message_dict); split; reflexivity.
Qed.

(** ** The dispatcher *)

(** Everything a handler does for a mapping, in program order. *)
Lemma process_command_effects (env : Env) (fields : dict) (self : UnityPythonBridge) :
  effects (process_command env (JObject fields) self)
  = if str_raises env (cmd_type_of fields) || unencodable (cmd_type_of fields)
    then []
    else
    Print (LogProcessing (cmd_type_of fields))
    :: (if eq_str (cmd_type_of fields) "ping" then
          effects (send_to_unity env (ping_response env) self)
        else if eq_str (cmd_type_of fields) "test_echo" then
          if str_raises env (get fields "data" (JString "")) then []
          else effects (send_to_unity env (test_echo_response env fields) self)
        else if eq_str (cmd_type_of fields) "shake_hand" then
          Print LogHandshakeRequested
          :: effects (send_to_unity env shake_hand_acknowledged self)
          ++ Print LogExtendingHand
          :: Sleep 2
          :: effects (send_to_unity env shake_hand_in_progress self)
          ++ Print LogPlayerInteraction
          :: Sleep 3
          :: Print LogHandshakeCompletion
          :: Sleep 1
          :: effects (send_to_unity env shake_hand_completed self)
        else if eq_str (cmd_type_of fields) "get_status" then
          effects (send_to_unity env get_status_response self)
        else
          effects (send_to_unity env (unknown_response env (cmd_type_of fields)) self))%list.
Proof.
  unfold process_command; cbn [as_dict].
  rewrite ret_then; cbv beta. rewrite print_showing_then.
  destruct (str_raises env (cmd_type_of fields)) eqn:Hformat; [reflexivity |].
  destruct (unencodable (cmd_type_of fields)); [reflexivity |].
  cbn [orb]. rewrite effects_do_then. f_equal.
  destruct (eq_str (cmd_type_of fields) "ping");
    [| destruct (eq_str (cmd_type_of fields) "test_echo");
       [rewrite format_then;
        destruct (str_raises env (get fields "data" (JString "")));
        [reflexivity |]
       | destruct (eq_str (cmd_type_of fields) "shake_hand");
          [| destruct (eq_str (cmd_type_of fields) "get_status");
             [| rewrite format_then, Hformat]]]];
    repeat (rewrite effects_send_then || rewrite effects_do_then);
    cbn [effects ret]; now rewrite app_nil_r.
Qed.

(** The four names are different strings: at most one comparison of the
    chain succeeds. *)
Lemma eq_str_exclusive (v : value) (s t : string) :
  s <> t -> eq_str v s = true -> eq_str v t = false.
Proof.
  intros Hdiff Hs. apply eq_str_true in Hs. subst v. cbn.
  now apply String.eqb_neq.
Qed.

(** What the handler of a mapping ends with: the exception of the first
    f-string or [print] outside a [try] that fails, and otherwise a normal
    return. *)
Lemma process_command_result (env : Env) (fields : dict) (self : UnityPythonBridge) :
  result (process_command env (JObject fields) self)
  = if str_raises env (cmd_type_of fields) then Raised RecursionOrValueError
    else if unencodable (cmd_type_of fields) then Raised UnicodeEncodeError
    else if negb (eq_str (cmd_type_of fields) "ping")
            && eq_str (cmd_type_of fields) "test_echo"
            && str_raises env (get fields "data" (JString ""))
    then Raised RecursionOrValueError
    else Ok tt.
Proof. by_branch fields self. Qed.



Lemma py_str_ext (env env' : Env) (v : value) :
  (forall w, py_repr env w = py_repr env' w) -> py_str env v = py_str env' v.
Proof. intros Hrepr. destruct v; cbn; auto. Qed.

Lemma envelopes_ext (env env' : Env) (command_dict : value) :
  (forall v, py_repr env v = py_repr env' v) ->
  now_isoformat env = now_isoformat env' ->
  envelopes env command_dict = envelopes env' command_dict.
Proof.
  intros Hrepr Hnow.
  destruct command_dict as [| | | | |items|fields]; try reflexivity.
  unfold envelopes, ping_response, test_echo_response, unknown_response.
  rewrite Hnow.
  rewrite (py_str_ext env env' (get fields "data" (JString "")) Hrepr).
  rewrite (py_str_ext env env' (cmd_type_of fields) Hrepr).
  reflexivity.
Qed.

Lemma str_raises_ext (env env' : Env) (v : value) :
  (forall v, repr_raises env v = repr_raises env' v) ->
  str_raises env v = str_raises env' v.
Proof. intros Hraises. destruct v; cbn; auto. Qed.

Lemma dumps_fails_ext (env env' : Env) (message_dict : dict) :
  (forall v, dumps_raises env v = dumps_raises env' v) ->
  dumps_fails env message_dict = dumps_fails env' message_dict.
Proof.
  intros Hraises. unfold dumps_fails.
  induction message_dict as [|[key v] rest IH]; [reflexivity |].
  cbn [existsb snd]. rewrite IH. f_equal.
  destruct v; cbn; auto.
Qed.

Lemma handed_ext (env env' : Env) (command_dict : value) :
  (forall v, py_repr env v = py_repr env' v) ->
  now_isoformat env = now_isoformat env' ->
  (forall v, repr_raises env v = repr_raises env' v) ->
  (forall v, dumps_raises env v = dumps_raises env' v) ->
  handed env command_dict = handed env' command_dict.
Proof.
  intros Hrepr Hnow Hstr Hdumps.
  destruct command_dict as [| | | | |items|fields]; try reflexivity.
  unfold handed, dies.
  rewrite (envelopes_ext env env' _ Hrepr Hnow).
  rewrite !(str_raises_ext env env' _ Hstr).
  destruct (_ || _ || _); [reflexivity |].
  apply filter_ext. intros message_dict.
  now rewrite (dumps_fails_ext env env' _ Hdumps).
Qed.

(** X3. What a handler hands to the transport does not depend on whether
    the transport refuses datagrams: a send that fails does not keep the
    later ones from being tried, and the handler ends as it would have,
    normally whenever it does so in a world where nothing is refused. The
    two worlds differ in the transport only. *)
Theorem refusals_do_not_stop_the_handler (env env' : Env) (command_dict : value)
    (self : UnityPythonBridge) :
  (forall v, py_repr env v = py_repr env' v) ->
  now_isoformat env = now_isoformat env' ->
  (forall v, repr_raises env v = repr_raises env' v) ->
  (forall v, dumps_raises env v = dumps_raises env' v) ->
  sent (effects (process_command env command_dict self))
  = sent (effects (process_command env' command_dict self))
  /\ result (process_command env command_dict self)
     = result (process_command env' command_dict self).
Proof.
  intros Hrepr Hnow Hstr Hdumps. split.
  - rewrite !process_command_sent,
      (handed_ext env env' _ Hrepr Hnow Hstr Hdumps).
    reflexivity.
  - destruct command_dict; try reflexivity.
    rewrite !process_command_result, !(str_raises_ext env env' _ Hstr).
    reflexivity.
Qed.

Lemma refusals_do_not_stop_the_handler_witness :
  (forall v, py_repr lab_env v = py_repr unplugged_env v)
  /\ now_isoformat lab_env = now_isoformat unplugged_env
  /\ (forall v, repr_raises lab_env v = repr_raises unplugged_env v)
  /\ (forall v, dumps_raises lab_env v = dumps_raises unplugged_env v)
  /\ sent (effects (process_command unplugged_env
                      (JObject [("command", JString "shake_hand")])
                      (set_unity_address (unity_pc, 50000%Z) fresh_bridge)))
     = [ (shake_hand_acknowledged, (unity_pc, 50000%Z));
         (shake_hand_in_progress, (unity_pc, 50000%Z));
         (shake_hand_completed, (unity_pc, 50000%Z)) ].
Proof.
  split; [reflexivity |]. split; [reflexivity |].
  split; [reflexivity |]. split; [reflexivity |].
  rewrite <- (proj1 (refusals_do_not_stop_the_handler lab_env unplugged_env
                       (JObject [("command", JString "shake_hand")])
                       (set_unity_address (unity_pc, 50000%Z) fresh_bridge)
                       (fun v => eq_refl) eq_refl (fun v => eq_refl)
                       (fun v => eq_refl))).
  reflexivity.
Defined.

(** X4. A [get_status] envelope is answered by exactly one response, with
    status [success] and command [get_status], whose fields are fixed: they
    depend neither on the envelope's other fields nor on the world. *)
Theorem get_status_one_success (env : Env) (self : UnityPythonBridge)
    (fields : dict) :
  lookup "command" fields = Some (JString "get_status") ->
  tagged "success" "get_status" get_status_response
  /\ lookup "robot_status" get_status_response = Some (JString "idle")
  /\ sent (effects (process_command env (JObject fields) self))
     = reply_to self get_status_response
  /\ (forall source, fst source = pc_ip self ->
        exists peer,
          unity_address
            (self_after
               (listen_iteration (Datagram (Utf8 (Document (JObject fields))) source) self))
          = Some peer
          /\ responses_to env (Datagram (Utf8 (Document (JObject fields))) source) self
             = [ (get_status_response, peer) ]).
Proof.
  intros Hcmd.
  assert (Henv : handed env (JObject fields) = [get_status_response])
    by (rewrite (handed_of_command env fields _ Hcmd); reflexivity).
  split; [split; reflexivity |].
  split; [reflexivity |].
  split.
  - rewrite process_command_sent, Henv. unfold reply_to.
    destruct (unity_address self); reflexivity.
  - intros source Hhost.
    destruct (peer_document_answered env self (JObject fields) source Hhost)
      as (peer & Hlearn & _ & Hsent).
    exists peer. rewrite Hsent, Henv. split; [exact Hlearn | reflexivity].
Qed.

Lemma get_status_one_success_witness :
  lookup "command" [("command", JString "get_status"); ("verbose", JBool true)]
  = Some (JString "get_status")
  /\ sent (effects (process_command lab_env
                      (JObject [("command", JString "get_status");
                                ("verbose", JBool true)])
                      (set_unity_address (unity_pc, 50000%Z) fresh_bridge)))
     = [ (get_status_response, (unity_pc, 50000%Z)) ].
Proof.
  split; [reflexivity |].
  destruct (get_status_one_success lab_env
              (set_unity_address (unity_pc, 50000%Z) fresh_bridge)
              [("command", JString "get_status"); ("verbose", JBool true)]
              eq_refl)
    as (_ & _ & Hsent & _).
  exact Hsent.
Defined.

(** X5. A [command] that is not a string (a number, [null], a list, ...)
    equals none of the four names: the envelope is answered by one [error]
    response whose [command] is that very value and whose message ends with
    its [repr], unless the interpreter gives up on the value: when its
    [repr] raises the handler dies, and when [json.dumps] raises on it
    [send_to_unity] sends nothing. *)
Theorem non_string_command_is_unknown (env : Env) (self : UnityPythonBridge)
    (fields : dict) (v : value) :
  lookup "command" fields = Some v ->
  (forall s, v <> JString s) ->
  lookup "status" (unknown_response env v) = Some (JString "error")
  /\ lookup "command" (unknown_response env v) = Some v
  /\ lookup "message" (unknown_response env v)
     = Some (JString ("Unknown command: " ++ py_repr env v))
  /\ sent (effects (process_command env (JObject fields) self))
     = (if repr_raises env v || dumps_raises env v then []
        else reply_to self (unknown_response env v))
  /\ (repr_raises env v = true ->
      result (process_command env (JObject fields) self) = Raised RecursionOrValueError)
  /\ (repr_raises env v = false ->
      result (process_command env (JObject fields) self) = Ok tt).
Proof.
  intros Hcmd Hnot.
  assert (Hcmd' : cmd_type_of fields = v)
    by (unfold cmd_type_of, get; now rewrite Hcmd).
  assert (Hstr : py_str env v = py_repr env v).
  { destruct v; try reflexivity. now destruct (Hnot s). }
  assert (Hno : forall s, eq_str v s = false).
  { intros s. destruct v; try reflexivity. now destruct (Hnot s0). }
  assert (Hformat : str_raises env v = repr_raises env v).
  { destruct v; try reflexivity. now destruct (Hnot s). }
  assert (Hdumps : dumps_gives_up env v = dumps_raises env v).
  { destruct v; try reflexivity. now destruct (Hnot s). }
  assert (Hwritable : unencodable v = false).
  { destruct v; try reflexivity. now destruct (Hnot s). }
  split; [reflexivity |]. split; [reflexivity |].
  split; [cbn; now rewrite Hstr |].
  split; [| split].
  - rewrite process_command_sent. unfold handed, dies, envelopes. rewrite Hcmd'.
    rewrite !Hno, Hformat, Hwritable. cbn [negb andb orb].
    rewrite Bool.orb_false_r.
    destruct (repr_raises env v); [now destruct (unity_address self) |].
    cbn [filter orb]. rewrite dumps_fails_unknown, Hdumps. unfold reply_to.
    destruct (dumps_raises env v); now destruct (unity_address self).
  - intros Hraises. rewrite process_command_result, Hcmd', Hformat, Hraises.
    reflexivity.
  - intros Hfine.
    rewrite process_command_result, Hcmd', Hformat, Hfine, Hwritable, !Hno.
    reflexivity.
Qed.

Lemma non_string_command_is_unknown_witness :
  lookup "command" [("command", JInt 7)] = Some (JInt 7)
  /\ (forall s, JInt 7 <> JString s)
  /\ sent (effects (process_command lab_env (JObject [("command", JInt 7)])
                      (set_unity_address (unity_pc, 50000%Z) fresh_bridge)))
     = [ (unknown_response lab_env (JInt 7), (unity_pc, 50000%Z)) ].
Proof.
  assert (Hnot : forall s, JInt 7 <> JString s) by (intros s; discriminate).
  split; [reflexivity |]. split; [exact Hnot |].
  destruct (non_string_command_is_unknown lab_env
              (set_unity_address (unity_pc, 50000%Z) fresh_bridge)
              [("command", JInt 7)] (JInt 7) eq_refl Hnot)
    as (_ & _ & _ & Hsent & _).
  exact Hsent.
Defined.

(** X6. Fields the dispatcher does not know are ignored: two envelopes with
    the same [command] and the same [data] are answered alike, whatever else
    they carry. *)
Theorem other_fields_ignored (env : Env) (self : UnityPythonBridge)
    (fields fields' : dict) :
  lookup "command" fields = lookup "command" fields' ->
  lookup "data" fields = lookup "data" fields' ->
  sent (effects (process_command env (JObject fields) self))
  = sent (effects (process_command env (JObject fields') self)).
Proof.
  intros Hcmd Hdata.
  rewrite !process_command_sent.
  unfold handed, dies, envelopes, test_echo_response, cmd_type_of, get.
  now rewrite Hcmd, Hdata.
Qed.

Lemma other_fields_ignored_witness :
  lookup "command" [("command", JString "ping")]
  = lookup "command" [("seq", JInt 3); ("command", JString "ping"); ("ttl", JNull)]
  /\ lookup "data" [("command", JString "ping")]
     = lookup "data" [("seq", JInt 3); ("command", JString "ping"); ("ttl", JNull)]
  /\ sent (effects (process_command lab_env
                      (JObject [("seq", JInt 3); ("command", JString "ping");
                                ("ttl", JNull)])
                      (set_unity_address (unity_pc, 50000%Z) fresh_bridge)))
     = [ (ping_response lab_env, (unity_pc, 50000%Z)) ].
Proof.
  split; [reflexivity |]. split; [reflexivity |].
  rewrite <- (other_fields_ignored lab_env
                (set_unity_address (unity_pc, 50000%Z) fresh_bridge)
                [("command", JString "ping")]
                [("seq", JInt 3); ("command", JString "ping"); ("ttl", JNull)]
                eq_refl eq_refl).
  reflexivity.
Defined.

(** ** The timing of the handlers *)

(** X7. The handler of [shake_hand] sleeps 2 seconds between the first and
    the second response and 3 + 1 seconds between the second and the third;
    while no reply endpoint is known it sleeps all the same and sends
    nothing. *)
Theorem shake_hand_timeline (env : Env) (self : UnityPythonBridge)
    (fields : dict) :
  lookup "command" fields = Some (JString "shake_hand") ->
  timeline (effects (process_command env (JObject fields) self))
  = match unity_address self with
    | Some peer =>
        [ SendTo shake_hand_acknowledged peer;
          Sleep 2;
          SendTo shake_hand_in_progress peer;
          Sleep 3;
          Sleep 1;
          SendTo shake_hand_completed peer ]
    | None => [Sleep 2; Sleep 3; Sleep 1]
    end.
Proof.
  intros Hcmd.
  assert (Hcmd' : cmd_type_of fields = JString "shake_hand")
    by (unfold cmd_type_of, get; now rewrite Hcmd).
  rewrite process_command_effects, Hcmd'.
  change (str_raises env (JString "shake_hand")
          || unencodable (JString "shake_hand")) with false.
  cbn [eq_str String.eqb Ascii.eqb Bool.eqb].
  cbn [timeline].
  repeat (rewrite timeline_app; cbn [timeline]).
  rewrite !(proj2 (send_to_unity_quiet env _ self)).
  destruct (unity_address self); reflexivity.
Qed.

Lemma shake_hand_timeline_witness :
  lookup "command" [("command", JString "shake_hand")] = Some (JString "shake_hand")
  /\ timeline (effects (process_command lab_env
                          (JObject [("command", JString "shake_hand")])
                          fresh_bridge))
     = [Sleep 2; Sleep 3; Sleep 1].
Proof.
  split; [reflexivity |].
  exact (shake_hand_timeline lab_env fresh_bridge
           [("command", JString "shake_hand")] eq_refl).
Defined.

(** X8. Only [shake_hand] sleeps: its handler sleeps 6 seconds in all, and
    the handler of any other input does not sleep at all. *)
Theorem only_shake_hand_sleeps (env : Env) (self : UnityPythonBridge)
    (command_dict : value) :
  slept (effects (process_command env command_dict self))
  = match command_dict with
    | JObject fields =>
        if eq_str (cmd_type_of fields) "shake_hand" then 6%Z else 0%Z
    | _ => 0%Z
    end.
Proof.
  destruct command_dict as [| | | | |items|fields]; try reflexivity.
  rewrite process_command_effects.
  destruct (str_raises env (cmd_type_of fields) || unencodable (cmd_type_of fields))
    eqn:Hdies.
  { destruct (eq_str (cmd_type_of fields) "shake_hand") eqn:Hshake; [| reflexivity].
    apply eq_str_true in Hshake. rewrite Hshake in Hdies. discriminate Hdies. }
  cbn [slept].
  destruct (eq_str (cmd_type_of fields) "ping") eqn:Hping.
  { rewrite (eq_str_exclusive _ "ping" "shake_hand") by (discriminate || assumption).
    apply send_to_unity_quiet. }
  destruct (eq_str (cmd_type_of fields) "test_echo") eqn:Hecho.
  { rewrite (eq_str_exclusive _ "test_echo" "shake_hand")
      by (discriminate || assumption).
    destruct (str_raises env (get fields "data" (JString ""))); [reflexivity |].
    apply send_to_unity_quiet. }
  destruct (eq_str (cmd_type_of fields) "shake_hand").
  { cbn [slept]. repeat (rewrite slept_app; cbn [slept]).
    rewrite !(proj1 (send_to_unity_quiet env _ self)). reflexivity. }
  destruct (eq_str (cmd_type_of fields) "get_status"); apply send_to_unity_quiet.
Qed.

(** ** Runs of the receive loop *)

(** The loop, one turn unrolled. *)
Lemma listen_loop_cons (r : received) (rest : list received)
    (self : UnityPythonBridge) :
  listen_loop (r :: rest) self
  = if running self
    then (listen_iteration r ;; listen_loop rest) self
    else ret tt self.
Proof.
  cbn [listen_loop]. rewrite read_then. destruct (running self); reflexivity.
Qed.

Lemma listen_iteration_escapes (r : received) (self : UnityPythonBridge) :
  result (listen_iteration r self)
  = if escapes r then Raised BaseExceptionOnly else Ok tt.
Proof.
  rewrite listen_iteration_result.
  destruct r as [|e|data source]; try reflexivity. destruct e; reflexivity.
Qed.


Lemma listen_iteration_pc_port (r : received) (self : UnityPythonBridge) :
  pc_port (self_after (listen_iteration r self)) = pc_port self.
Proof. by_received r self. Qed.

Lemma listen_iteration_connections (r : received) (self : UnityPythonBridge) :
  connections (effects (listen_iteration r self))
  = match unity_address self with
    | Some _ => []
    | None => option_list (learned r self)
    end.
Proof. unfold learned, option_list. by_received r self. Qed.





(** X10. A turn in which [recvfrom] times out does nothing at all. A turn
    in which it fails otherwise ([OSError]) ends normally too and leaves the
    bridge as it was; the error is printed only while the bridge is
    running. *)
Theorem receive_errors_end_the_turn (self : UnityPythonBridge) :
  self_after (listen_iteration Timeout self) = self
  /\ effects (listen_iteration Timeout self) = []
  /\ result (listen_iteration Timeout self) = Ok tt
  /\ self_after (listen_iteration (RecvFails OSError) self) = self
  /\ effects (listen_iteration (RecvFails OSError) self)
     = (if running self then [Print (LogError OSError)] else [])
  /\ result (listen_iteration (RecvFails OSError) self) = Ok tt.
Proof.
  unfold listen_iteration, try_except, listen_body; cbn [recvfrom].
  repeat turn_step. cbn.
  destruct (running self); repeat split.
Qed.

(** A loop that is not running takes no turn. *)
Lemma listen_loop_stopped (inputs : list received) (self : UnityPythonBridge) :
  running self = false ->
  self_after (listen_loop inputs self) = self
  /\ effects (listen_loop inputs self) = []
  /\ result (listen_loop inputs self) = Ok tt.
Proof.
  intros Hstopped.
  destruct inputs as [|r rest]; [repeat split |].
  rewrite listen_loop_cons, Hstopped. repeat split.
Qed.

(** X11. After [stop] the loop takes no further turn, whatever the socket
    still delivers; a [recvfrom] that fails because [stop] closed the socket
    under it is swallowed without a line; and the reply endpoint learned so
    far is kept. *)
Theorem stop_halts_the_loop (self : UnityPythonBridge) (inputs : list received) :
  running (fst (stop self)) = false
  /\ unity_address (fst (stop self)) = unity_address self
  /\ self_after (listen_loop inputs (fst (stop self))) = fst (stop self)
  /\ effects (listen_loop inputs (fst (stop self))) = []
  /\ effects (listen_iteration (RecvFails OSError) (fst (stop self))) = [].
Proof.
  destruct (listen_loop_stopped inputs (fst (stop self)) eq_refl)
    as (Hafter & Heffects & _).
  repeat split; assumption.
Qed.

(** One turn leaves every field but the reply endpoint alone. *)
Lemma listen_loop_configuration (inputs : list received) :
  forall self : UnityPythonBridge,
    pc_ip (self_after (listen_loop inputs self)) = pc_ip self
    /\ listen_port (self_after (listen_loop inputs self)) = listen_port self
    /\ pc_port (self_after (listen_loop inputs self)) = pc_port self
    /\ running (self_after (listen_loop inputs self)) = running self.
Proof.
  induction inputs as [|r rest IH]; intros self; [repeat split |].
  rewrite listen_loop_cons.
  destruct (running self) eqn:Hrun; [| repeat split; assumption].
  rewrite after_bind.
  destruct (listen_iteration_config r self) as (Hip & Hrun' & Hport).
  pose proof (listen_iteration_pc_port r self) as Hpc.
  destruct (result (listen_iteration r self)).
  - destruct (IH (self_after (listen_iteration r self))) as (-> & -> & -> & ->).
    repeat split; congruence.
  - repeat split; congruence.
Qed.

(** X12. A run of [listen] changes nothing of the bridge but the reply
    endpoint and the running flag, which it sets: the peer host and the
    listen port stay what the constructor was given, and [pc_port], which
    the constructor leaves unset, is never set. *)
Theorem listen_keeps_configuration (ip : string) (port : Z)
    (inputs : list received) :
  pc_ip (self_after (listen inputs (init ip port))) = ip
  /\ listen_port (self_after (listen inputs (init ip port))) = port
  /\ pc_port (self_after (listen inputs (init ip port))) = None
  /\ running (self_after (listen inputs (init ip port))) = true.
Proof.
  unfold listen. rewrite write_then.
  destruct (listen_loop_configuration inputs (set_running true (init ip port)))
    as (-> & -> & -> & ->).
  repeat split.
Qed.

(** ** The session *)

(** The announcements of a run: none once an endpoint is known, and
    otherwise the endpoint the run learns, if it learns one. *)
Lemma listen_loop_connections (inputs : list received) :
  forall self : UnityPythonBridge,
    connections (effects (listen_loop inputs self))
    = match unity_address self with
      | Some _ => []
      | None => option_list (unity_address (self_after (listen_loop inputs self)))
      end.
Proof.
  induction inputs as [|r rest IH]; intros self.
  - cbn. destruct (unity_address self); reflexivity.
  - rewrite listen_loop_cons.
    destruct (running self);
      [| cbn; destruct (unity_address self); reflexivity].
    rewrite effects_bind, after_bind, connections_app.
    rewrite listen_iteration_connections.
    pose proof (listen_iteration_address r self) as Haddr.
    specialize (IH (self_after (listen_iteration r self))).
    destruct (result (listen_iteration r self)).
    + rewrite IH, Haddr.
      destruct (unity_address self) as [known|] eqn:Hself.
      * unfold learned. now rewrite Hself.
      * destruct (learned r self) as [peer|] eqn:Hlearned; [| reflexivity].
        rewrite (listen_loop_keeps_address rest _ peer); [reflexivity |].
        now rewrite Haddr.
    + rewrite Haddr, app_nil_r.
      destruct (unity_address self); reflexivity.
Qed.

(** X13. "Unity connected" is announced at most once in the life of a
    bridge: a run started with no reply endpoint announces exactly the
    endpoint it ends with, if any, and a bridge that already has one
    announces nothing any more. *)
Theorem connection_announced_once (ip : string) (port : Z)
    (inputs more : list received) :
  connections (effects (listen inputs (init ip port)))
  = option_list (unity_address (self_after (listen inputs (init ip port))))
  /\ (forall known,
        unity_address (self_after (listen inputs (init ip port))) = Some known ->
        connections
          (effects (listen more (self_after (listen inputs (init ip port)))))
        = []).
Proof.
  unfold listen. rewrite !write_then. split.
  - now rewrite listen_loop_connections.
  - intros known Hknown. rewrite ?write_then, listen_loop_connections.
    cbn [set_running unity_address]. now rewrite Hknown.
Qed.

Lemma connection_announced_once_witness :
  connections (effects (listen sample_traffic (init unity_pc 5005)))
  = [(unity_pc, 50000%Z)]
  /\ connections
       (effects
          (listen sample_traffic
             (self_after (listen sample_traffic (init unity_pc 5005)))))
     = [].
Proof.
  destruct (connection_announced_once unity_pc 5005 sample_traffic sample_traffic)
    as [Hfirst Hlater].
  split; [exact Hfirst |].
  apply (Hlater (unity_pc, 50000%Z)). reflexivity.
Defined.

(** The endpoint a running loop ends with, when it starts with none. *)
Lemma listen_loop_first_from (inputs : list received) :
  forall self : UnityPythonBridge,
    running self = true ->
    unity_address self = None ->
    existsb escapes inputs = false ->
    unity_address (self_after (listen_loop inputs self))
    = first_from (pc_ip self) inputs.
Proof.
  induction inputs as [|r rest IH]; intros self Hrun Hunset Hnone.
  - exact Hunset.
  - cbn [existsb] in Hnone. apply Bool.orb_false_iff in Hnone as [Hesc Hnone].
    rewrite listen_loop_cons, Hrun, after_bind, listen_iteration_escapes, Hesc.
    destruct (listen_iteration_config r self) as (Hip & Hrun' & _).
    pose proof (listen_iteration_address r self) as Haddr.
    unfold learned in Haddr. rewrite Hunset in Haddr.
    destruct r as [|e|data source]; cbn [first_from];
      try (rewrite IH; [now rewrite Hip | congruence | assumption | assumption]).
    destruct (String.eqb (fst source) (pc_ip self)).
    + now apply listen_loop_keeps_address.
    + rewrite IH; [now rewrite Hip | congruence | assumption | assumption].
Qed.

(** X14. First sender wins: after any run from a new bridge, the reply
    endpoint is the source of the first datagram that came from the
    configured peer host, whatever its payload was and whatever came
    later; a run with no such datagram leaves the endpoint unset. *)
Theorem first_sender_wins (ip : string) (port : Z) (inputs : list received) :
  existsb escapes inputs = false ->
  unity_address (self_after (listen inputs (init ip port)))
  = first_from ip inputs.
Proof.
  intros Hnone. unfold listen. rewrite write_then.
  now rewrite listen_loop_first_from.
Qed.

Lemma first_sender_wins_witness :
  existsb escapes sample_traffic = false
  /\ unity_address (self_after (listen sample_traffic (init unity_pc 5005)))
     = Some (unity_pc, 50000%Z).
Proof.
  split; [reflexivity |].
  exact (first_sender_wins unity_pc 5005 sample_traffic eq_refl).
Defined.

(** X15. Whatever a new bridge has received, a handler it runs sends only
    to the configured peer host: no datagram ever goes to another host. *)
Theorem replies_stay_with_the_peer_host (env : Env) (ip : string) (port : Z)
    (inputs : list received) (command_dict : value) (message_dict : dict)
    (dest : address) :
  In (message_dict, dest)
     (thread_sends env (self_after (listen inputs (init ip port))) command_dict) ->
  fst dest = ip.
Proof.
  unfold thread_sends, listen. rewrite write_then, process_command_sent.
  destruct (unity_address
              (self_after (listen_loop inputs (set_running true (init ip port)))))
    as [peer|] eqn:Hpeer; [| intros []].
  intros Hin. apply in_map_iff in Hin as (m & Hm & _).
  injection Hm as _ <-.
  apply listen_loop_address_origin in Hpeer as [Hnever|(data & _ & Hhost)].
  - discriminate Hnever.
  - exact Hhost.
Qed.

Lemma replies_stay_with_the_peer_host_witness :
  In (ping_response lab_env, (unity_pc, 50000%Z))
     (thread_sends lab_env (self_after (listen sample_traffic (init unity_pc 5005)))
        (JObject [("command", JString "ping")]))
  /\ fst (unity_pc, 50000%Z) = unity_pc.
Proof.
  assert (Hin : In (ping_response lab_env, (unity_pc, 50000%Z))
     (thread_sends lab_env (self_after (listen sample_traffic (init unity_pc 5005)))
        (JObject [("command", JString "ping")])))
    by (left; reflexivity).
  split; [exact Hin |].
  exact (replies_stay_with_the_peer_host _ _ _ _ _ _ _ Hin).
Defined.

(** X16. A handler is only ever started with a reply endpoint in place,
    and that endpoint is still the one the handler sends to however many
    more turns the loop takes before the handler gets to run. What it sends
    then is what the dispatcher builds in the world as it is then (the
    timestamp of a [ping] is read when the handler runs, not when the
    datagram arrives). *)
Theorem handler_may_run_later (later : Env) (r : received)
    (self : UnityPythonBridge) (more : list received) (command_dict : value) :
  In command_dict (spawned (effects (listen_iteration r self))) ->
  exists peer,
    unity_address (self_after (listen_iteration r self)) = Some peer
    /\ unity_address
         (self_after (listen_loop more (self_after (listen_iteration r self))))
       = Some peer
    /\ thread_sends later
         (self_after (listen_loop more (self_after (listen_iteration r self))))
         command_dict
       = map (addressed peer) (handed later command_dict).
Proof.
  rewrite listen_iteration_spawned. unfold dispatched. intros Hin.
  assert (Hpeer : exists peer,
            unity_address (self_after (listen_iteration r self)) = Some peer).
  { rewrite listen_iteration_address. unfold learned.
    destruct (unity_address self) as [known|]; [now exists known |].
    destruct r as [|e|[|[| |v]] source]; try contradiction.
    destruct (String.eqb (fst source) (pc_ip self)); [| contradiction].
    now exists source. }
  destruct Hpeer as [peer Hpeer]. exists peer.
  assert (Hlater := listen_loop_keeps_address more _ peer Hpeer).
  split; [exact Hpeer |]. split; [exact Hlater |].
  unfold thread_sends. now rewrite process_command_sent, Hlater.
Qed.

Lemma handler_may_run_later_witness :
  In (JObject [("command", JString "shake_hand")])
     (spawned
        (effects
           (listen_iteration
              (Datagram (Utf8 (Document (JObject [("command", JString "shake_hand")])))
                 (unity_pc, 50000%Z))
              fresh_bridge)))
  /\ exists peer,
       thread_sends unplugged_env
         (self_after
            (listen_loop sample_traffic
               (self_after
                  (listen_iteration
                     (Datagram
                        (Utf8 (Document (JObject [("command", JString "shake_hand")])))
                        (unity_pc, 50000%Z))
                     fresh_bridge))))
         (JObject [("command", JString "shake_hand")])
       = map (addressed peer)
           (handed unplugged_env (JObject [("command", JString "shake_hand")])).
Proof.
  assert (Hin : In (JObject [("command", JString "shake_hand")])
     (spawned
        (effects
           (listen_iteration
              (Datagram (Utf8 (Document (JObject [("command", JString "shake_hand")])))
                 (unity_pc, 50000%Z))
              fresh_bridge))))
    by (left; reflexivity).
  split; [exact Hin |].
  destruct (handler_may_run_later unplugged_env _ _ sample_traffic _ Hin)
    as (peer & _ & _ & Hsends).
  exists peer. exact Hsends.
Defined.

(** X17. The replies to an envelope go to the endpoint learned first, not
    to the sender of the envelope: on first contact the two are the same,
    but an envelope that the peer sends from another port afterwards is
    answered to the old port. Every datagram that the handler of the
    envelope hands to the transport goes there. *)
Theorem replies_go_to_the_learned_endpoint (env : Env) (self : UnityPythonBridge)
    (command_dict : value) (source : address) :
  fst source = pc_ip self ->
  responses_to env (Datagram (Utf8 (Document command_dict)) source) self
  = map (addressed (match unity_address self with
                    | Some known => known
                    | None => source
                    end))
      (handed env command_dict)
  /\ (forall message_dict dest,
        In (message_dict, dest)
           (responses_to env (Datagram (Utf8 (Document command_dict)) source) self) ->
        dest = match unity_address self with
               | Some known => known
               | None => source
               end).
Proof.
  intros Hhost.
  destruct (peer_document_answered env self command_dict source Hhost)
    as (peer & Hlearn & Hfirst & ->).
  rewrite listen_iteration_address in Hlearn. unfold learned in Hlearn.
  assert (Hpeer : peer = match unity_address self with
                         | Some known => known
                         | None => source
                         end).
  { destruct (unity_address self) as [known|].
    - now injection Hlearn as ->.
    - now apply Hfirst. }
  rewrite <- Hpeer. split; [reflexivity |].
  intros message_dict dest Hin.
  apply in_map_iff in Hin as (m & Hm & _). now injection Hm as _ <-.
Qed.

Lemma replies_go_to_the_learned_endpoint_witness :
  fst (unity_pc, 50001%Z) = pc_ip (set_unity_address (unity_pc, 50000%Z) fresh_bridge)
  /\ responses_to lab_env
       (Datagram (Utf8 (Document (JObject [("command", JString "ping")])))
          (unity_pc, 50001%Z))
       (set_unity_address (unity_pc, 50000%Z) fresh_bridge)
     = [ (ping_response lab_env, (unity_pc, 50000%Z)) ].
Proof.
  split; [reflexivity |].
  exact (proj1 (replies_go_to_the_learned_endpoint lab_env
                  (set_unity_address (unity_pc, 50000%Z) fresh_bridge)
                  (JObject [("command", JString "ping")]) (unity_pc, 50001%Z)
                  eq_refl)).
Defined.

(** X18. Until a datagram has come from the configured peer host the bridge
    sends nothing at all: whatever else a new bridge has received, a handler
    run on it hands no datagram to the transport. *)
Theorem silent_until_contact (env : Env) (ip : string) (port : Z)
    (inputs : list received) (command_dict : value) :
  existsb escapes inputs = false ->
  first_from ip inputs = None ->
  thread_sends env (self_after (listen inputs (init ip port))) command_dict = [].
Proof.
  intros Hnone Hnobody. unfold thread_sends.
  apply process_command_without_endpoint.
  unfold listen. rewrite write_then.
  now rewrite listen_loop_first_from.
Qed.

Lemma silent_until_contact_witness :
  existsb escapes
    [Timeout; Datagram (Utf8 (Document JNull)) ("192.168.123.99", 40000%Z)]
  = false
  /\ first_from unity_pc
       [Timeout; Datagram (Utf8 (Document JNull)) ("192.168.123.99", 40000%Z)]
     = None
  /\ thread_sends lab_env
       (self_after
          (listen
             [Timeout; Datagram (Utf8 (Document JNull)) ("192.168.123.99", 40000%Z)]
             (init unity_pc 5005)))
       (JObject [("command", JString "ping")])
     = [].
Proof.
  split; [reflexivity |]. split; [reflexivity |].
  exact (silent_until_contact lab_env unity_pc 5005
           [Timeout; Datagram (Utf8 (Document JNull)) ("192.168.123.99", 40000%Z)]
           (JObject [("command", JString "ping")]) eq_refl eq_refl).
Defined.

(** ** The shape of the answers *)

(** An envelope that [process_command] sends is one of those its branch
    builds. *)
Lemma sent_is_an_envelope (env : Env) (self : UnityPythonBridge)
    (command_dict : value) (message_dict : dict) (dest : address) :
  In (message_dict, dest) (sent (effects (process_command env command_dict self))) ->
  In message_dict (envelopes env command_dict).
Proof.
  rewrite process_command_sent.
  destruct (unity_address self) as [peer|]; [| intros []].
  intros Hin. apply in_map_iff in Hin as (m & Hm & Hin).
  injection Hm as -> _. now apply handed_is_built.
Qed.

(** X19. Every response envelope the dispatcher sends carries a [message]
    that is a string. *)
Theorem every_response_has_a_message (env : Env) (self : UnityPythonBridge)
    (command_dict : value) (message_dict : dict) (dest : address) :
  In (message_dict, dest) (sent (effects (process_command env command_dict self))) ->
  exists text, lookup "message" message_dict = Some (JString text).
Proof.
  intros Hin. apply sent_is_an_envelope in Hin.
  destruct command_dict as [| | | | |items|fields]; try contradiction.
  unfold envelopes in Hin.
  destruct (eq_str (cmd_type_of fields) "ping");
    [| destruct (eq_str (cmd_type_of fields) "test_echo");
       [| destruct (eq_str (cmd_type_of fields) "shake_hand");
          [| destruct (eq_str (cmd_type_of fields) "get_status")]]];
    cbn [In] in Hin;
    repeat match goal with
      | H : _ \/ _ |- _ => destruct H as [<-|H]
      | H : False |- _ => destruct H
      end;
    eexists; reflexivity.
Qed.

Lemma every_response_has_a_message_witness :
  In (unknown_response lab_env (JString "dance"), (unity_pc, 50000%Z))
     (sent (effects (process_command lab_env (JObject [("command", JString "dance")])
                       (set_unity_address (unity_pc, 50000%Z) fresh_bridge))))
  /\ exists text,
       lookup "message" (unknown_response lab_env (JString "dance"))
       = Some (JString text).
Proof.
  assert (Hin : In (unknown_response lab_env (JString "dance"), (unity_pc, 50000%Z))
     (sent (effects (process_command lab_env (JObject [("command", JString "dance")])
                       (set_unity_address (unity_pc, 50000%Z) fresh_bridge)))))
    by (left; reflexivity).
  split; [exact Hin |].
  exact (every_response_has_a_message _ _ _ _ _ Hin).
Defined.

(** X20. A response has status [error] exactly when the command
    identifier is none of the four names: the handlers of [ping],
    [test_echo], [shake_hand] and [get_status] never report an error. *)
Theorem error_only_for_unknown (env : Env) (self : UnityPythonBridge)
    (fields : dict) (message_dict : dict) (dest : address) :
  In (message_dict, dest)
     (sent (effects (process_command env (JObject fields) self))) ->
  lookup "status" message_dict = Some (JString "error")
  <-> (eq_str (cmd_type_of fields) "ping" = false
       /\ eq_str (cmd_type_of fields) "test_echo" = false
       /\ eq_str (cmd_type_of fields) "shake_hand" = false
       /\ eq_str (cmd_type_of fields) "get_status" = false).
Proof.
  intros Hin. apply sent_is_an_envelope in Hin. unfold envelopes in Hin.
  destruct (eq_str (cmd_type_of fields) "ping");
    [| destruct (eq_str (cmd_type_of fields) "test_echo");
       [| destruct (eq_str (cmd_type_of fields) "shake_hand");
          [| destruct (eq_str (cmd_type_of fields) "get_status")]]];
    cbn [In] in Hin;
    repeat match goal with
      | H : _ \/ _ |- _ => destruct H as [<-|H]
      | H : False |- _ => destruct H
      end;
    cbn; split; intros H; try discriminate H;
    try (destruct H as (? & ? & ? & ?); discriminate);
    repeat split.
Qed.

Lemma error_only_for_unknown_witness :
  In (get_status_response, (unity_pc, 50000%Z))
     (sent (effects (process_command lab_env
                       (JObject [("command", JString "get_status")])
                       (set_unity_address (unity_pc, 50000%Z) fresh_bridge))))
  /\ lookup "status" get_status_response <> Some (JString "error").
Proof.
  assert (Hin : In (get_status_response, (unity_pc, 50000%Z))
     (sent (effects (process_command lab_env
                       (JObject [("command", JString "get_status")])
                       (set_unity_address (unity_pc, 50000%Z) fresh_bridge)))))
    by (left; reflexivity).
  split; [exact Hin |].
  intros Herror.
  apply (error_only_for_unknown _ _ _ _ _ Hin) in Herror
    as (_ & _ & _ & Hstatus).
  discriminate Hstatus.
Defined.




(** ** Payloads that are not envelopes *)

(** X22. How a payload from the peer that cannot be decoded is reported:
    text that is not JSON by the line of the [JSONDecodeError] clause,
    always; bytes that are not UTF-8, and text nested too deep, by the
    general clause, which prints only while the bridge is running. *)
Theorem decode_errors_by_clause (self : UnityPythonBridge) (source known : address) :
  fst source = pc_ip self ->
  unity_address self = Some known ->
  effects (listen_iteration (Datagram (Utf8 NotJson) source) self)
  = [Print LogJSONDecodeError]
  /\ effects (listen_iteration (Datagram NotUtf8 source) self)
     = (if running self then [Print (LogError UnicodeDecodeError)] else [])
  /\ effects (listen_iteration (Datagram (Utf8 TooDeep) source) self)
     = (if running self then [Print (LogError RecursionError)] else []).
Proof.
  intros Hhost Hknown.
  unfold listen_iteration, try_except, listen_body; cbn [recvfrom].
  repeat turn_step. rewrite Hhost, String.eqb_refl.
  repeat turn_step. rewrite Hknown.
  cbn [decode_utf8 json_loads]. repeat turn_step. cbn.
  destruct (running self); repeat split.
Qed.

Lemma decode_errors_by_clause_witness :
  fst (unity_pc, 50000%Z) = pc_ip (set_unity_address (unity_pc, 50000%Z) fresh_bridge)
  /\ unity_address (set_unity_address (unity_pc, 50000%Z) fresh_bridge)
     = Some (unity_pc, 50000%Z)
  /\ effects (listen_iteration (Datagram NotUtf8 (unity_pc, 50000%Z))
                (set_unity_address (unity_pc, 50000%Z) fresh_bridge))
     = [Print (LogError UnicodeDecodeError)].
Proof.
  split; [reflexivity |]. split; [reflexivity |].
  exact (proj1 (proj2 (decode_errors_by_clause
                         (set_unity_address (unity_pc, 50000%Z) fresh_bridge)
                         (unity_pc, 50000%Z) (unity_pc, 50000%Z)
                         eq_refl eq_refl))).
Defined.


